(** * Emitter broker edge: request handlers (internal/broker)

    A shallow embedding of [handlers.go] and of the request/response
    declarations that accompany it, with the theorems relating the
    handlers to the broker specification.

    Conventions
    - Go [string] and [[]byte] values are [string]s (sequences of 8-bit
      characters); a nil byte slice is the empty string.
    - Fixed-width integers are [Z]; conversions that can wrap are written
      out ([to_uint32], [to_int64]).
    - [time.Time] is a number of nanoseconds since the Unix epoch,
      [time.Duration] a number of nanoseconds; the reading of the clock,
      [time.Now()], is the argument [now] of the handlers that read it.
    - The packages the handlers call but which are not part of this
      development (security, message, storage, the cluster transport, the
      JSON and binary codecs) are interfaces: type classes whose methods
      the handlers call. *)

From Stdlib Require Import ZArith Ascii String List Bool Lia.
From stdpp Require Import base option list gmap strings.

Local Open Scope string_scope.
Local Open Scope Z_scope.

(* ------------------------------------------------------------------ *)
(** ** Machine integers *)

Definition to_uint32 (z : Z) : Z := z mod 2 ^ 32.

Definition to_int64 (z : Z) : Z := (z + 2 ^ 63) mod 2 ^ 64 - 2 ^ 63.

Definition is_int32 (z : Z) : Prop := - 2 ^ 31 <= z < 2 ^ 31.

Definition is_uint8 (z : Z) : Prop := 0 <= z < 2 ^ 8.

(* ------------------------------------------------------------------ *)
(** ** Time *)

Definition Time := Z.
Definition Duration := Z.

Definition Second : Duration := 1000000000.
Definition Millisecond : Duration := 1000000.

(** [time.Unix(sec, nsec)] *)
Definition time_Unix (sec nsec : Z) : Time := sec * Second + nsec.

(** [t.Add(d)] *)
Definition time_Add (t : Time) (d : Duration) : Time := t + d.

(** [t.Unix()]: whole seconds since the epoch. *)
Definition Unix (t : Time) : Z := t / Second.

(* ------------------------------------------------------------------ *)
(** ** Regular expressions

    The fragment of Go's [regexp] syntax that [shortcut] is written in:
    character classes given by ranges, concatenation, counted repetition
    and the two text anchors. *)

Module Regexp.

Inductive syntax : Type :=
| CharClass (ranges : list (ascii * ascii))
| Concat (r1 r2 : syntax)
| Repeat (r : syntax) (min max : nat).

Record t : Type := Compiled {
  begin_text : bool;     (* the pattern starts with ^ *)
  body : syntax;
  end_text : bool        (* the pattern ends with $ *)
}.

Definition in_range (c : ascii) (r : ascii * ascii) : bool :=
  (N_of_ascii (fst r) <=? N_of_ascii c)%N && (N_of_ascii c <=? N_of_ascii (snd r))%N.

Definition in_class (c : ascii) (ranges : list (ascii * ascii)) : bool :=
  existsb (in_range c) ranges.

(** [exactly m n s]: what is left of [s] after [n] successive matches. *)
Definition exactly (m : string -> list string) : nat -> string -> list string :=
  fix go (n : nat) (s : string) : list string :=
    match n with
    | O => [s]
    | S n' => flat_map (go n') (m s)
    end.

(** [at_most m n s]: what is left of [s] after at most [n] matches. *)
Definition at_most (m : string -> list string) : nat -> string -> list string :=
  fix go (n : nat) (s : string) : list string :=
    match n with
    | O => [s]
    | S n' => (flat_map (go n') (m s) ++ [s])%list
    end.

(** [run r s]: every suffix of [s] left over by a match of [r] against a
    prefix of [s]. *)
Fixpoint run (r : syntax) (s : string) : list string :=
  match r with
  | CharClass ranges =>
      match s with
      | String c rest => if in_class c ranges then [rest] else []
      | EmptyString => []
      end
  | Concat r1 r2 => flat_map (run r2) (run r1 s)
  | Repeat r' lo hi =>
      flat_map (at_most (run r') (hi - lo)) (exactly (run r') lo s)
  end.

Fixpoint suffixes (s : string) : list string :=
  match s with
  | EmptyString => [EmptyString]
  | String _ rest => s :: suffixes rest
  end.

Definition is_empty (s : string) : bool :=
  match s with EmptyString => true | _ => false end.

(** [re.Match(b)]: does the text contain a match of the pattern? *)
Definition Match (re : t) (text : string) : bool :=
  let starts := if begin_text re then [text] else suffixes text in
  existsb
    (fun start =>
       existsb (fun rest => if end_text re then is_empty rest else true)
               (run (body re) start))
    starts.

End Regexp.

(** [shortcut = regexp.MustCompile("^[a-zA-Z0-9]{1,2}$")] *)
Definition shortcut : Regexp.t :=
  Regexp.Compiled true
    (Regexp.Repeat
       (Regexp.CharClass [("a", "z"); ("A", "Z"); ("0", "9")]%char) 1 2)
    true.

(* ------------------------------------------------------------------ *)
(** ** Package security: permissions, keys and channels *)

(** The permission flags of package security ([uint8] constants). Their
    numeric values are fixed by that package; the handlers only combine
    and test them. *)
Class Permissions : Type := {
  AllowNone : Z;
  AllowRead : Z;
  AllowWrite : Z;
  AllowStore : Z;
  AllowLoad : Z;
  AllowPresence : Z;
  AllowExtend : Z;
  AllowExecute : Z;
  AllowAll : Z
}.

(** What a decrypted key exposes to the broker. *)
Record Key : Type := {
  Contract : Z;          (* key.Contract(): uint32 contract id *)
  KeyPermissions : Z;    (* key.Permissions(): uint8 flag set *)
  IsMaster : bool;       (* key.IsMaster() *)
  IsExpired : bool       (* key.IsExpired() *)
}.

(** Modelled from the spec: [Key.HasPermission] of package security. A
    flag is granted when [required & permissions = required]. *)
Definition HasPermission (k : Key) (flag : Z) : bool :=
  Z.land (KeyPermissions k) flag =? flag.

Inductive ChannelKind : Type :=
| ChannelInvalid
| ChannelStatic
| ChannelWildcard.

#[global] Instance ChannelKind_eq_dec : EqDecision ChannelKind.
Proof. solve_decision. Defined.

Record Channel : Type := {
  ChannelKey : string;                 (* channel.Key *)
  ChannelPath : string;                (* channel.Channel *)
  Query : list Z;                      (* channel.Query: hashed segments *)
  Options : list (string * string);    (* channel.Options *)
  ChannelType : ChannelKind
}.

(** The functions and methods of package security that the handlers
    call. A Go pair [(v, ok)] is a Rocq pair; a possibly nil [*Channel]
    is an [option]. *)
Class Security : Type := {
  ParseChannel : string -> Channel;
  MakeChannel : string -> string -> option Channel;
  TTL : Channel -> Z * bool;               (* channel.TTL(): (int64, bool) *)
  Last : Channel -> Z * bool;              (* channel.Last(): (int64, bool) *)
  Window : Channel -> Time * Time;         (* channel.Window() *)
  Exclude : Channel -> bool;               (* channel.Exclude() *)
  ChannelString : Channel -> string;       (* channel.String() *)
  SafeString : Channel -> string           (* channel.SafeString() *)
}.

(* ------------------------------------------------------------------ *)
(** ** Package errors *)

(** Modelled from the spec: the error values of package errors, one per
    kind of the error taxonomy. *)
Inductive Error : Type :=
| ErrBadRequest
| ErrUnauthorized
| ErrUnauthorizedExt
| ErrForbidden
| ErrNotFound
| ErrLinkInvalid
| ErrServerError
| ErrTargetInvalid.

#[global] Instance Error_eq_dec : EqDecision Error.
Proof. solve_decision. Defined.

(* ------------------------------------------------------------------ *)
(** ** Package message *)

Definition Ssid := list Z.

(** Modelled from the spec: [message.NewSsid]. An SSID is the sequence
    [contract, q0, q1, ...]. *)
Definition NewSsid (contract : Z) (query : list Z) : Ssid := contract :: query.

Record Message : Type := {
  MsgSsid : Ssid;
  MsgChannel : string;
  MsgPayload : string;
  MsgTTL : Z                 (* uint32, seconds *)
}.

(** Modelled from the spec: [message.New] builds a transient message. *)
Definition message_New (ssid : Ssid) (channel payload : string) : Message :=
  {| MsgSsid := ssid; MsgChannel := channel; MsgPayload := payload; MsgTTL := 0 |}.

Definition set_TTL (m : Message) (ttl : Z) : Message :=
  {| MsgSsid := MsgSsid m; MsgChannel := MsgChannel m;
     MsgPayload := MsgPayload m; MsgTTL := ttl |}.

(** Modelled from the spec: [msg.Stored()] holds iff [ttl > 0]. *)
Definition Stored (m : Message) : bool := 0 <? MsgTTL m.

(* ------------------------------------------------------------------ *)
(** ** Requests and responses *)

Record keyGenRequest : Type := {
  kg_Key : string;
  kg_Channel : string;
  kg_Type : string;
  kg_TTL : Z                 (* int32 *)
}.

Record keyGenResponse : Type := {
  kgr_Request : Z;
  kgr_Status : Z;
  kgr_Key : string;
  kgr_Channel : string
}.

Record linkRequest : Type := {
  lk_Name : string;
  lk_Key : string;
  lk_Channel : string;
  lk_Subscribe : bool;
  lk_Private : bool
}.

Record linkResponse : Type := {
  lkr_Request : Z;
  lkr_Status : Z;
  lkr_Name : string;
  lkr_Channel : string
}.

Record meResponse : Type := {
  me_Request : Z;
  me_ID : string;
  me_Links : gmap string string
}.

Record presenceRequest : Type := {
  pr_Key : string;
  pr_Channel : string;
  pr_Status : bool;
  pr_Changes : option bool   (* *bool: nil, or a pointer to a flag *)
}.

Inductive presenceEvent : Type :=
| presenceStatusEvent
| presenceSubscribeEvent
| presenceUnsubscribeEvent.

Definition presenceEvent_string (e : presenceEvent) : string :=
  match e with
  | presenceStatusEvent => "status"
  | presenceSubscribeEvent => "subscribe"
  | presenceUnsubscribeEvent => "unsubscribe"
  end.

Record presenceInfo : Type := {
  pi_ID : string;
  pi_Username : string
}.

Record presenceResponse : Type := {
  prr_Request : Z;
  prr_Time : Z;
  prr_Event : presenceEvent;
  prr_Channel : string;
  prr_Who : list presenceInfo
}.

(** The [response] interface: the four response shapes and the error
    shape. *)
Inductive response : Type :=
| RespError (e : Error)
| RespKeyGen (r : keyGenResponse)
| RespLink (r : linkResponse)
| RespMe (r : meResponse)
| RespPresence (r : presenceResponse).

Section KeyGenRequest.
Context {perms : Permissions}.

(** [expires] returns the requested expiration time. *)
Definition expires (now : Time) (m : keyGenRequest) : Time :=
  if kg_TTL m =? 0 then time_Unix 0 0
  else time_Add now (to_int64 (kg_TTL m * Second)).

(** One iteration of the loop of [access]: the [switch] on a character. *)
Definition access_step (required : Z) (c : ascii) : Z :=
  if Ascii.eqb c "r" then Z.lor required AllowRead
  else if Ascii.eqb c "w" then Z.lor required AllowWrite
  else if Ascii.eqb c "s" then Z.lor required AllowStore
  else if Ascii.eqb c "l" then Z.lor required AllowLoad
  else if Ascii.eqb c "p" then Z.lor required AllowPresence
  else if Ascii.eqb c "e" then Z.lor required AllowExtend
  else if Ascii.eqb c "x" then Z.lor required AllowExecute
  else required.

Fixpoint access_loop (required : Z) (type : string) : Z :=
  match type with
  | EmptyString => required
  | String c rest => access_loop (access_step required c) rest
  end.

(** [access] returns the requested level of access. *)
Definition access (m : keyGenRequest) : Z := access_loop AllowNone (kg_Type m).

End KeyGenRequest.

(* ------------------------------------------------------------------ *)
(** ** Connections and the services behind them *)

(** A contract, as obtained from the contract cache. *)
Record ContractInfo : Type := { ContractID : Z }.

(** A subscription held by the trie: [(ssid, channel, connection id)]. *)
Definition Subscription : Type := Ssid * string * string.

(** What a trie lookup yields: local client connections and other
    subscribers (peers of the cluster). *)
Inductive Subscriber : Type :=
| LocalConn (id username : string)
| RemotePeer (name : string).

(** [*mqtt.Publish], as far as the handlers read it. *)
Record Publish : Type := {
  Topic : string;
  Payload : string;
  MessageID : Z;             (* uint16 *)
  Retain : bool              (* Header.Retain *)
}.

(** Calls that leave the handlers: what was sent, stored, published,
    logged and counted, in the order of the calls. *)
Inductive Effect : Type :=
| EffSend (m : Message)                                (* c.Send *)
| EffStore (m : Message)                               (* storage.Store *)
| EffPublish (m : Message) (exclude : string)          (* service.publish *)
| EffTrack (contract : ContractInfo)                   (* c.track *)
| EffAddIngress (contract : ContractInfo) (n : Z)      (* Stats().AddIngress *)
| EffAddEgress (contract : ContractInfo) (n : Z)       (* Stats().AddEgress *)
| EffLogError (context action err : string)            (* logging.LogError *)
| EffLogTarget (context action : string) (s : Ssid)    (* logging.LogTarget *)
| EffSendResponse (topic : string) (r : response).     (* c.sendResponse *)

(** The state a handler runs in: the connection and, of the service it
    belongs to, the subscription trie and the record of outgoing calls.
    [links] is a Go map: [None] is the nil map. *)
Record Conn : Type := {
  ID : string;
  username : string;
  links : option (gmap string string);
  subscriptions : gset Subscription;
  effects : list Effect
}.

Definition set_username (u : string) (c : Conn) : Conn :=
  {| ID := ID c; username := u; links := links c;
     subscriptions := subscriptions c; effects := effects c |}.

Definition set_links (l : option (gmap string string)) (c : Conn) : Conn :=
  {| ID := ID c; username := username c; links := l;
     subscriptions := subscriptions c; effects := effects c |}.

Definition set_subscriptions (s : gset Subscription) (c : Conn) : Conn :=
  {| ID := ID c; username := username c; links := links c;
     subscriptions := s; effects := effects c |}.

Definition add_effect (e : Effect) (c : Conn) : Conn :=
  {| ID := ID c; username := username c; links := links c;
     subscriptions := subscriptions c; effects := (effects c ++ [e])%list |}.

(** [m[k]] on a Go map of strings: the zero value for a missing key and
    for the nil map. *)
Definition map_index (m : option (gmap string string)) (k : string) : string :=
  match m with
  | Some entries => default "" (entries !! k)
  | None => ""
  end.

Definition is_nil {A : Type} (m : option A) : bool :=
  match m with Some _ => false | None => true end.

Definition len (s : string) : Z := Z.of_nat (String.length s).

(** The providers behind [c.keys]. A Go result [(v, err)] is [inr v] when
    [err] is nil and [inl err] otherwise. *)
Class KeyProvider : Type := {
  DecryptKey : string -> option Key;
  CreateKey : string -> string -> Z -> Time -> Error + string;
  ExtendKey : string -> string -> string -> Z -> Time -> Error + option Channel
}.

(** An awaiter of survey responses: what [Gather] returns for a timeout. *)
Definition Awaiter : Type := Duration -> list string.

(** What [c.service] offers to the handlers, with the constants and
    codecs of the packages around it. *)
Class Service : Type := {
  (* service.authorize: [None] when not allowed *)
  authorize : Channel -> Z -> option (ContractInfo * Key);
  (* service.contracts.Get and contract.Validate *)
  contracts_Get : Z -> option ContractInfo;
  Validate : ContractInfo -> Key -> bool;
  (* service.storage.Query *)
  storage_Query : Ssid -> Time -> Time -> Z -> string + list Message;
  (* the size service.publish returns *)
  publish_size : gset Subscription -> Message -> string -> Z;
  (* service.subscriptions.Lookup *)
  subscriptions_Lookup : gset Subscription -> Ssid -> list Subscriber;
  (* service.Survey *)
  Survey : string -> string -> string + Awaiter;
  (* package message *)
  RetainedTTL : Z;
  NewSsidForPresence : Ssid -> Ssid;
  (* encoding/json into a request that holds the defaults *)
  json_Unmarshal_keyGen : string -> keyGenRequest -> option keyGenRequest;
  json_Unmarshal_link : string -> linkRequest -> option linkRequest;
  json_Unmarshal_presence : string -> presenceRequest -> option presenceRequest;
  (* kelindar/binary *)
  binary_Marshal_ssid : Ssid -> option string;
  binary_Unmarshal_ssid : string -> option Ssid;
  binary_Marshal_presence : list presenceInfo -> option string;
  binary_Unmarshal_presence : string -> option (list presenceInfo)
}.

(* ------------------------------------------------------------------ *)
(** ** Handlers as state transformers

    A handler takes the connection to the value it returns and the
    connection it leaves behind; [None] is a run-time panic. *)

Definition Handler (A : Type) : Type := Conn -> option (A * Conn).

Definition ret {A : Type} (a : A) : Handler A := fun c => Some (a, c).

Definition bind {A B : Type} (m : Handler A) (k : A -> Handler B) : Handler B :=
  fun c => match m c with
           | Some (a, c') => k a c'
           | None => None
           end.

Definition panic {A : Type} : Handler A := fun _ => None.

Definition self : Handler Conn := fun c => Some (c, c).

Definition update (f : Conn -> Conn) : Handler unit := fun c => Some (tt, f c).

Definition emit (e : Effect) : Handler unit := update (add_effect e).

Declare Scope handler_scope.
Delimit Scope handler_scope with handler.
Notation "x <- m ;; k" := (bind m (fun x => k))
  (at level 100, m at next level, right associativity) : handler_scope.
Notation "m ;; k" := (bind m (fun _ => k))
  (at level 100, right associativity) : handler_scope.
Local Open Scope handler_scope.

Fixpoint for_each {A : Type} (f : A -> Handler unit) (l : list A) : Handler unit :=
  match l with
  | [] => ret tt
  | x :: rest => f x ;; for_each f rest
  end.

(** Modelled from the spec: [Conn.Subscribe], which inserts
    [(ssid, channel, self)] into the trie, idempotently. *)
Definition Subscribe (ssid : Ssid) (channel : string) : Handler unit :=
  update (fun c => set_subscriptions ({[ (ssid, channel, ID c) ]} ∪ subscriptions c) c).

(** Modelled from the spec: [Conn.Unsubscribe], which removes the
    [(ssid, channel, self)] entry from the trie; removing an entry that
    is not there does nothing. *)
Definition Unsubscribe (ssid : Ssid) (channel : string) : Handler unit :=
  update (fun c => set_subscriptions (subscriptions c ∖ {[ (ssid, channel, ID c) ]}) c).

(** [c.links[name] = value]; an assignment to an entry of the nil map
    panics. *)
Definition links_assign (name value : string) : Handler unit :=
  fun c => match links c with
           | Some entries => Some (tt, set_links (Some (<[name := value]> entries)) c)
           | None => None
           end.

Definition Send (m : Message) : Handler unit := emit (EffSend m).
Definition track (contract : ContractInfo) : Handler unit := emit (EffTrack contract).

(** [ForRequest] sets the request ID in the response for matching. *)
Definition ForRequest (r : response) (id : Z) : response :=
  match r with
  | RespError e => RespError e
  | RespKeyGen r =>
      RespKeyGen {| kgr_Request := id; kgr_Status := kgr_Status r;
                    kgr_Key := kgr_Key r; kgr_Channel := kgr_Channel r |}
  | RespLink r =>
      RespLink {| lkr_Request := id; lkr_Status := lkr_Status r;
                  lkr_Name := lkr_Name r; lkr_Channel := lkr_Channel r |}
  | RespMe r =>
      RespMe {| me_Request := id; me_ID := me_ID r; me_Links := me_Links r |}
  | RespPresence r =>
      RespPresence {| prr_Request := id; prr_Time := prr_Time r;
                      prr_Event := prr_Event r; prr_Channel := prr_Channel r;
                      prr_Who := prr_Who r |}
  end.

(** Modelled from the spec: [Conn.sendResponse], which sets the request
    id on the response and sends it on the topic of the request. *)
Definition sendResponse (topic : string) (r : response) (requestID : Z) : Handler unit :=
  emit (EffSendResponse topic (ForRequest r requestID)).

Definition requestKeygen : Z := 548658350.
Definition requestPresence : Z := 3869262148.
Definition requestLink : Z := 2667034312.
Definition requestMe : Z := 2539734036.

(** The values the request bodies are decoded into: the zero values of
    [linkRequest] and [keyGenRequest], and the defaults of a presence
    request (send the status, no change of the notifications). *)
Definition linkRequest_zero : linkRequest :=
  {| lk_Name := ""; lk_Key := ""; lk_Channel := "";
     lk_Subscribe := false; lk_Private := false |}.

Definition keyGenRequest_zero : keyGenRequest :=
  {| kg_Key := ""; kg_Channel := ""; kg_Type := ""; kg_TTL := 0 |}.

Definition presenceRequest_default : presenceRequest :=
  {| pr_Key := ""; pr_Channel := ""; pr_Status := true; pr_Changes := None |}.

Section Handlers.
Context {perms : Permissions} {sec : Security} {keys : KeyProvider} {svc : Service}.

Definition is_invalid (channel : Channel) : bool :=
  bool_decide (ChannelType channel = ChannelInvalid).

Definition is_static (channel : Channel) : bool :=
  bool_decide (ChannelType channel = ChannelStatic).

(** [onConnect] handles the connection authorization. *)
Definition onConnect (packet_Username : string) : Handler bool :=
  update (set_username packet_Username) ;;
  ret true.

(** The limit of the replay: one if not specified, otherwise the
    [last] option. *)
Definition replay_limit (channel : Channel) : Z :=
  match Last channel with
  | (v, true) => v
  | (_, false) => 1
  end.

(** [onSubscribe] is a handler for MQTT Subscribe events. *)
Definition onSubscribe (mqttTopic : string) : Handler (option Error) :=
  let channel := ParseChannel mqttTopic in
  if is_invalid channel then ret (Some ErrBadRequest) else
  match authorize channel AllowRead with
  | None => ret (Some ErrUnauthorized)
  | Some (contract, key) =>
      if HasPermission key AllowExtend then ret (Some ErrUnauthorizedExt) else
      let ssid := NewSsid (Contract key) (Query channel) in
      Subscribe ssid (ChannelPath channel) ;;
      let limit := replay_limit channel in
      if HasPermission key AllowLoad then
        let '(t0, t1) := Window channel in
        match storage_Query ssid t0 t1 limit with
        | inl err =>
            emit (EffLogError "conn" "query last messages" err) ;;
            ret (Some ErrServerError)
        | inr msgs =>
            for_each Send msgs ;;
            track contract ;;
            ret None
        end
      else
        track contract ;;
        ret None
  end.

(** [onUnsubscribe] is a handler for MQTT Unsubscribe events. *)
Definition onUnsubscribe (mqttTopic : string) : Handler (option Error) :=
  let channel := ParseChannel mqttTopic in
  if is_invalid channel then ret (Some ErrBadRequest) else
  match authorize channel AllowRead with
  | None => ret (Some ErrUnauthorized)
  | Some (contract, key) =>
      let ssid := NewSsid (Contract key) (Query channel) in
      Unsubscribe ssid (ChannelPath channel) ;;
      track contract ;;
      ret None
  end.

(** [onMe] is a handler that returns information to the connection. *)
Definition onMe : Handler (option response * bool) :=
  c <- self ;;
  let links := (fun v => SafeString (ParseChannel v)) <$> default ∅ (links c) in
  ret (Some (RespMe {| me_Request := 0; me_ID := ID c; me_Links := links |}), true).

(** [onLink] handles a request to create a link. *)
Definition onLink (payload : string) : Handler (option response * bool) :=
  match json_Unmarshal_link payload linkRequest_zero with
  | None => ret (Some (RespError ErrBadRequest), false)
  | Some request =>
      if negb (Regexp.Match shortcut (lk_Name request))
      then ret (Some (RespError ErrLinkInvalid), false) else
      c <- self ;;
      let made := MakeChannel (lk_Key request) (lk_Channel request) in
      let extended :=
        if lk_Private request
        then ExtendKey (lk_Key request) (lk_Channel request) (ID c)
                       AllowAll (time_Unix 0 0)
        else inr made in
      match extended with
      | inl err => ret (Some (RespError err), false)
      | inr None => ret (Some (RespError ErrBadRequest), false)
      | inr (Some channel) =>
          if is_invalid channel then ret (Some (RespError ErrBadRequest), false) else
          links_assign (lk_Name request) (ChannelString channel) ;;
          match authorize channel AllowRead with
          | Some (_, key) =>
              if lk_Subscribe request
              then Subscribe (NewSsid (Contract key) (Query channel))
                             (ChannelPath channel)
              else ret tt
          | None => ret tt
          end ;;
          ret (Some (RespLink {| lkr_Request := 0; lkr_Status := 200;
                                 lkr_Name := lk_Name request;
                                 lkr_Channel := SafeString channel |}), true)
      end
  end.

(** [onKeyGen] processes a keygen request. *)
Definition onKeyGen (now : Time) (payload : string) : Handler (option response * bool) :=
  match json_Unmarshal_keyGen payload keyGenRequest_zero with
  | None => ret (Some (RespError ErrBadRequest), false)
  | Some message =>
      match DecryptKey (kg_Key message) with
      | None => ret (Some (RespError ErrUnauthorized), false)
      | Some parentKey =>
          if IsExpired parentKey then ret (Some (RespError ErrUnauthorized), false) else
          if IsMaster parentKey then
            match CreateKey (kg_Key message) (kg_Channel message)
                            (access message) (expires now message) with
            | inl err => ret (Some (RespError err), false)
            | inr key =>
                ret (Some (RespKeyGen {| kgr_Request := 0; kgr_Status := 200;
                                         kgr_Key := key;
                                         kgr_Channel := kg_Channel message |}), true)
            end
          else if HasPermission parentKey AllowExtend then
            c <- self ;;
            match ExtendKey (kg_Key message) (kg_Channel message) (ID c)
                            (access message) (expires now message) with
            | inl err => ret (Some (RespError err), false)
            | inr None => panic            (* channel.Key on a nil channel *)
            | inr (Some channel) =>
                ret (Some (RespKeyGen {| kgr_Request := 0; kgr_Status := 200;
                                         kgr_Key := ChannelKey channel;
                                         kgr_Channel := ChannelPath channel |}), true)
            end
          else ret (Some (RespError ErrUnauthorized), false)
      end
  end.

(** [lookupPresence] performs a subscriptions lookup and returns a
    presence information. *)
Definition lookupPresence (trie : gset Subscription) (ssid : Ssid) : list presenceInfo :=
  fold_left
    (fun resp subscriber =>
       match subscriber with
       | LocalConn id user => (resp ++ [{| pi_ID := id; pi_Username := user |}])%list
       | RemotePeer _ => resp
       end)
    (subscriptions_Lookup trie ssid) [].

(** [OnSurvey] handles an incoming presence query. *)
Definition OnSurvey (queryType payload : string) : Handler (option string * bool) :=
  if negb (String.eqb queryType "presence") then ret (None, false) else
  match binary_Unmarshal_ssid payload with
  | None => ret (None, false)
  | Some target =>
      emit (EffLogTarget "query" (queryType ++ " query received") target) ;;
      c <- self ;;
      match binary_Marshal_presence (lookupPresence (subscriptions c) target) with
      | Some presence => ret (Some presence, true)
      | None => ret (None, false)
      end
  end.

Definition getClusterPresence (ssid : Ssid) : list presenceInfo :=
  match binary_Marshal_ssid ssid with
  | Some req =>
      match Survey "presence" req with
      | inr awaiter =>
          fold_left
            (fun who resp =>
               match binary_Unmarshal_presence resp with
               | Some info => (who ++ info)%list
               | None => who
               end)
            (awaiter (1000 * Millisecond)) []
      | inl _ => []
      end
  | None => []
  end.

Definition getLocalPresence (trie : gset Subscription) (ssid : Ssid) : list presenceInfo :=
  lookupPresence trie ssid.

Definition getAllPresence (trie : gset Subscription) (ssid : Ssid) : list presenceInfo :=
  (getLocalPresence trie ssid ++ getClusterPresence ssid)%list.

Definition has_suffix_slash (s : string) : bool :=
  match String.length s with
  | O => false
  | S n => String.eqb (String.substring n 1 s) "/"
  end.

(** [onPresence] processes a presence request. *)
Definition onPresence (now : Time) (payload : string) : Handler (option response * bool) :=
  match json_Unmarshal_presence payload presenceRequest_default with
  | None => ret (Some (RespError ErrBadRequest), false)
  | Some msg =>
      match DecryptKey (pr_Key msg) with
      | None => ret (Some (RespError ErrUnauthorized), false)
      | Some key =>
          if negb (HasPermission key AllowPresence) || IsExpired key
          then ret (Some (RespError ErrUnauthorized), false) else
          match contracts_Get (Contract key) with
          | None => ret (Some (RespError ErrNotFound), false)
          | Some contract =>
              if negb (Validate contract key)
              then ret (Some (RespError ErrUnauthorized), false) else
              let msg_Channel :=
                if negb (has_suffix_slash (pr_Channel msg))
                then pr_Channel msg ++ "/" else pr_Channel msg in
              let channel := ParseChannel ("emitter/" ++ msg_Channel) in
              if is_invalid channel then ret (Some (RespError ErrBadRequest), false) else
              let ssid := NewSsid (Contract key) (Query channel) in
              match pr_Changes msg with
              | Some true => Subscribe (NewSsidForPresence ssid) ""
              | Some false => Unsubscribe (NewSsidForPresence ssid) ""
              | None => ret tt
              end ;;
              let now_unix := Unix now in
              if pr_Status msg then
                c <- self ;;
                let who := ([] ++ getAllPresence (subscriptions c) ssid)%list in
                ret (Some (RespPresence {| prr_Request := 0; prr_Time := now_unix;
                                           prr_Event := presenceStatusEvent;
                                           prr_Channel := msg_Channel;
                                           prr_Who := who |}), true)
              else ret (None, true)
          end
      end
  end.

(** [onEmitterRequest] processes an emitter request. The deferred call
    sends whatever response the request produced. *)
Definition onEmitterRequest (now : Time) (channel : Channel) (payload : string)
    (requestID : Z) : Handler bool :=
  result <-
    match Query channel with
    | [] => ret (Some (RespError ErrNotFound), false)
    | q0 :: _ =>
        if q0 =? requestKeygen then onKeyGen now payload
        else if q0 =? requestPresence then onPresence now payload
        else if q0 =? requestMe then onMe
        else if q0 =? requestLink then onLink payload
        else ret (Some (RespError ErrNotFound), false)
    end ;;
  match fst result with
  | Some resp => sendResponse (ChannelString channel) resp requestID
  | None => ret tt
  end ;;
  ret (snd result).

(** The topic [onPublish] parses: a topic of at most two bytes is read
    through the links of the connection. *)
Definition resolve_topic (c : Conn) (mqttTopic : string) : string :=
  if (len mqttTopic <=? 2) && negb (is_nil (links c))
  then map_index (links c) mqttTopic
  else mqttTopic.

(** The TTL of the message [onPublish] builds. *)
Definition resolve_ttl (packet : Publish) (channel : Channel) (msg : Message) : Message :=
  let msg := if Retain packet then set_TTL msg RetainedTTL else msg in
  match TTL channel with
  | (ttl, ok) => if ok && (0 <? ttl) then set_TTL msg (to_uint32 ttl) else msg
  end.

(** [onPublish] is a handler for MQTT Publish events. *)
Definition onPublish (now : Time) (packet : Publish) : Handler (option Error) :=
  c <- self ;;
  let mqttTopic := resolve_topic c (Topic packet) in
  let channel := ParseChannel mqttTopic in
  if is_invalid channel then ret (Some ErrBadRequest) else
  if negb (is_static channel) then ret (Some ErrForbidden) else
  if (len (ChannelKey channel) =? 7) && String.eqb (ChannelKey channel) "emitter" then
    onEmitterRequest now channel (Payload packet) (MessageID packet) ;;
    ret None
  else
  match authorize channel AllowWrite with
  | None => ret (Some ErrUnauthorized)
  | Some (contract, key) =>
      if HasPermission key AllowExtend then ret (Some ErrUnauthorizedExt) else
      let msg := message_New (NewSsid (Contract key) (Query channel))
                             (ChannelPath channel) (Payload packet) in
      let msg := resolve_ttl packet channel msg in
      (if Stored msg && HasPermission key AllowStore
       then emit (EffStore msg) else ret tt) ;;
      let exclude := if Exclude channel then ID c else "" in
      c' <- self ;;
      let size := publish_size (subscriptions c') msg exclude in
      emit (EffPublish msg exclude) ;;
      track contract ;;
      emit (EffAddIngress contract (len (Payload packet))) ;;
      emit (EffAddEgress contract size) ;;
      ret None
  end.

End Handlers.

(* ------------------------------------------------------------------ *)
(** ** The specification's vocabulary *)

(** An ASCII letter or digit. *)
Definition alphanumeric (c : ascii) : Prop :=
  let n := N_of_ascii c in
  (97 <= n <= 122)%N \/ (65 <= n <= 90)%N \/ (48 <= n <= 57)%N.

(** The grammar of a shortcut as the specification words it: one or two
    characters, each an ASCII letter or digit. *)
Definition shortcut_grammar (name : string) : Prop :=
  (1 <= String.length name <= 2)%nat
  /\ Forall alphanumeric (list_ascii_of_string name).

Section PermissionFlags.
Context {perms : Permissions}.

(** The permission a character of the [type] field stands for; no
    permission for any other character. *)
Definition permission_of (c : ascii) : option Z :=
  match c with
  | "r"%char => Some AllowRead
  | "w"%char => Some AllowWrite
  | "s"%char => Some AllowStore
  | "l"%char => Some AllowLoad
  | "p"%char => Some AllowPresence
  | "e"%char => Some AllowExtend
  | "x"%char => Some AllowExecute
  | _ => None
  end.

(** The access a [type] field asks for, as the specification words it:
    the OR of the permissions its characters stand for. *)
Definition requested_access (type : string) : Z :=
  fold_right Z.lor AllowNone (omap permission_of (list_ascii_of_string type)).

(** The flags are 8-bit values. *)
Definition flags_are_uint8 : Prop :=
  Forall is_uint8 [AllowNone; AllowRead; AllowWrite; AllowStore; AllowLoad;
                   AllowPresence; AllowExtend; AllowExecute].

End PermissionFlags.

(** The expiry a keygen request asks for, as the specification words it:
    the epoch for a TTL of zero, otherwise [ttl] seconds from now. *)
Definition requested_expiry (now : Time) (ttl : Z) : Time :=
  if ttl =? 0 then 0 else now + ttl * 1000000000.


(** The channel of a presence request, with its trailing slash. *)
Definition presence_channel (msg : presenceRequest) : string :=
  if has_suffix_slash (pr_Channel msg) then pr_Channel msg
  else pr_Channel msg ++ "/".

(* ------------------------------------------------------------------ *)
(** ** A sample deployment

    One concrete choice of the interfaces, on which the handlers can be
    run: four keys, a handful of topics, a store that fails for one
    contract and a key generator that refuses an empty target. *)

Module Sample.

#[export] Instance permissions : Permissions := {|
  AllowNone := 0;
  AllowRead := 2;
  AllowWrite := 4;
  AllowStore := 8;
  AllowLoad := 16;
  AllowPresence := 32;
  AllowExtend := 64;
  AllowExecute := 128;
  AllowAll := 255
|}.

Definition invalid : Channel :=
  {| ChannelKey := ""; ChannelPath := ""; Query := []; Options := [];
     ChannelType := ChannelInvalid |}.

Definition channel (key path : string) (query : list Z)
    (options : list (string * string)) (kind : ChannelKind) : Channel :=
  {| ChannelKey := key; ChannelPath := path; Query := query;
     Options := options; ChannelType := kind |}.

(** The topics the sample parser knows. *)
Definition topics : list (string * Channel) :=
  [ ("reader/a/b/", channel "reader" "a/b/" [10; 11] [] ChannelStatic);
    ("writer/a/b/", channel "writer" "a/b/" [10; 11] [] ChannelStatic);
    ("writer/a/b/?ttl=0", channel "writer" "a/b/" [10; 11] [("ttl", "0")] ChannelStatic);
    ("writer/a/b/?ttl=30", channel "writer" "a/b/" [10; 11] [("ttl", "30")] ChannelStatic);
    ("writer/a/+/", channel "writer" "a/+/" [10; 1815237614] [] ChannelWildcard);
    ("extend/a/b/", channel "extend" "a/b/" [10; 11] [] ChannelStatic);
    ("broken/a/b/", channel "broken" "a/b/" [10; 11] [] ChannelStatic);
    ("emitter/a/b/", channel "emitter" "a/b/" [10; 11] [] ChannelStatic);
    ("emitter/link/", channel "emitter" "link/" [requestLink] [] ChannelStatic);
    ("emitter/me/", channel "emitter" "me/" [requestMe] [] ChannelStatic) ].

Fixpoint assoc {A : Type} (k : string) (l : list (string * A)) : option A :=
  match l with
  | [] => None
  | (k', v) :: rest => if String.eqb k k' then Some v else assoc k rest
  end.

Definition option_number (name : string) (c : Channel) : Z * bool :=
  match assoc name (Options c) with
  | Some "0" => (0, true)
  | Some "5" => (5, true)
  | Some "30" => (30, true)
  | _ => (0, false)
  end.

Definition safe_string (c : Channel) : string :=
  match Options c with
  | [] => ChannelPath c
  | (k, v) :: _ => ChannelPath c ++ "?" ++ k ++ "=" ++ v
  end.

#[export] Instance security : Security := {|
  ParseChannel topic := default invalid (assoc topic topics);
  MakeChannel key path := Some (default invalid (assoc (key ++ "/" ++ path) topics));
  TTL := option_number "ttl";
  Last := option_number "last";
  Window _ := (0, 0);
  Exclude c := match assoc "me" (Options c) with Some "0" => true | _ => false end;
  ChannelString c := ChannelKey c ++ "/" ++ safe_string c;
  SafeString := safe_string
|}.

(** The keys the sample provider decrypts: contract, permissions,
    master and expired flags. *)
Definition keys : list (string * Key) :=
  [ ("master", {| Contract := 1; KeyPermissions := 1; IsMaster := true; IsExpired := false |});
    ("reader", {| Contract := 1; KeyPermissions := 2 + 16; IsMaster := false; IsExpired := false |});
    ("writer", {| Contract := 1; KeyPermissions := 2 + 4 + 8 + 16 + 32; IsMaster := false; IsExpired := false |});
    ("extend", {| Contract := 1; KeyPermissions := 2 + 4 + 64; IsMaster := false; IsExpired := false |});
    ("broken", {| Contract := 7; KeyPermissions := 2 + 16; IsMaster := false; IsExpired := false |});
    ("orphan", {| Contract := 9; KeyPermissions := 32; IsMaster := false; IsExpired := false |});
    ("stale", {| Contract := 1; KeyPermissions := 32; IsMaster := false; IsExpired := true |}) ].

#[export] Instance provider : KeyProvider := {|
  DecryptKey k := assoc k keys;
  CreateKey k target perms exp :=
    if String.eqb target "" then inl ErrTargetInvalid else inr ("minted:" ++ target);
  ExtendKey k target id perms exp :=
    if String.eqb target "" then inl ErrTargetInvalid
    else inr (Some (channel ("extended:" ++ id) target [10; 11] [] ChannelStatic))
|}.

Definition stored_message : Message :=
  {| MsgSsid := [1; 10; 11]; MsgChannel := "a/b/"; MsgPayload := "hello"; MsgTTL := 30 |}.

(** The request bodies the sample codec decodes. *)
Definition keygen_bodies : list (string * keyGenRequest) :=
  [ ("keygen rw", {| kg_Key := "master"; kg_Channel := "a/b/"; kg_Type := "rw"; kg_TTL := 0 |});
    ("keygen no target", {| kg_Key := "master"; kg_Channel := ""; kg_Type := "rw"; kg_TTL := 0 |});
    ("keygen reader", {| kg_Key := "reader"; kg_Channel := "a/b/"; kg_Type := "rw"; kg_TTL := 60 |}) ].

Definition link_bodies : list (string * linkRequest) :=
  [ ("link a1", {| lk_Name := "a1"; lk_Key := "writer"; lk_Channel := "a/b/";
                   lk_Subscribe := true; lk_Private := false |});
    ("link abc", {| lk_Name := "abc"; lk_Key := "writer"; lk_Channel := "a/b/";
                    lk_Subscribe := true; lk_Private := false |}) ].

Definition presence_bodies : list (string * presenceRequest) :=
  [ ("presence a/b", {| pr_Key := "writer"; pr_Channel := "a/b"; pr_Status := true; pr_Changes := None |});
    ("presence quiet", {| pr_Key := "writer"; pr_Channel := "a/b/"; pr_Status := false; pr_Changes := Some true |});
    ("presence bad", {| pr_Key := "writer"; pr_Channel := "a b"; pr_Status := true; pr_Changes := None |});
    ("presence stale", {| pr_Key := "stale"; pr_Channel := "a/b/"; pr_Status := true; pr_Changes := None |});
    ("presence orphan", {| pr_Key := "orphan"; pr_Channel := "a/b/"; pr_Status := true; pr_Changes := None |}) ].

#[export] Instance service : Service := {|
  authorize c required :=
    match assoc (ChannelKey c) keys with
    | Some key =>
        if HasPermission key required && negb (IsExpired key)
        then Some ({| ContractID := Contract key |}, key) else None
    | None => None
    end;
  contracts_Get id := if id =? 1 then Some {| ContractID := 1 |} else None;
  Validate contract key := ContractID contract =? Contract key;
  storage_Query ssid t0 t1 limit :=
    match ssid with
    | 7 :: _ => inl "store unavailable"
    | _ => inr [stored_message]
    end;
  publish_size trie msg exclude := len (MsgPayload msg) * Z.of_nat (size trie);
  subscriptions_Lookup trie ssid :=
    map (fun e : Subscription => LocalConn (snd e) "")
        (filter (fun e : Subscription => fst (fst e) = ssid) (elements trie));
  Survey _ _ := inl "no cluster";
  RetainedTTL := 4294967295;
  NewSsidForPresence ssid := 3869262148 :: ssid;
  json_Unmarshal_keyGen body _ := assoc body keygen_bodies;
  json_Unmarshal_link body _ := assoc body link_bodies;
  json_Unmarshal_presence body _ := assoc body presence_bodies;
  binary_Marshal_ssid _ := None;
  binary_Unmarshal_ssid _ := None;
  binary_Marshal_presence _ := None;
  binary_Unmarshal_presence _ := None
|}.

(** A fresh connection. *)
Definition conn : Conn :=
  {| ID := "c1"; username := "alice"; links := Some ∅;
     subscriptions := ∅; effects := [] |}.

(** A connection that subscribed to [a/b/] with the extend key. *)
Definition subscribed : Conn :=
  {| ID := "c1"; username := "alice"; links := Some ∅;
     subscriptions := {[ ([1; 10; 11], "a/b/", "c1") ]}; effects := [] |}.

(** A connection with the link [a1]. *)
Definition linked : Conn :=
  {| ID := "c1"; username := "alice";
     links := Some {[ "a1" := "writer/a/b/" ]};
     subscriptions := ∅; effects := [] |}.

(** The fresh connection after the link [a1] with a subscription. *)
Definition after_link : Conn :=
  {| ID := "c1"; username := "alice";
     links := Some {[ "a1" := "writer/a/b/" ]};
     subscriptions := {[ ([1; 10; 11], "a/b/", "c1") ]}; effects := [] |}.

Definition publish (topic : string) (retain : bool) : Publish :=
  {| Topic := topic; Payload := "x"; MessageID := 1; Retain := retain |}.

End Sample.

(* ------------------------------------------------------------------ *)
(** ** Presence notifications *)

(** [presenceNotify] represents a state notification. *)
Record presenceNotify : Type := {
  pn_Time : Z;
  pn_Event : presenceEvent;
  pn_Channel : string;
  pn_Who : presenceInfo;
  pn_Ssid : Ssid
}.

(** The encoder of notifications: [json.Marshal] on a [presenceNotify]. *)
Class NotifyCodec : Type := {
  json_Marshal_notify : presenceNotify -> string + string
}.

Section PresenceNotify.
Context {svc : Service} {codec : NotifyCodec}.

(** [newPresenceNotify] creates a new notification payload. *)
Definition newPresenceNotify (now : Time) (ssid : Ssid) (event : presenceEvent)
    (channel id user : string) : presenceNotify :=
  {| pn_Ssid := NewSsidForPresence ssid;
     pn_Time := Unix now;
     pn_Event := event;
     pn_Channel := channel;
     pn_Who := {| pi_ID := id; pi_Username := user |} |}.

(** [Encode] encodes the presence notifications and returns a payload to
    send. *)
Definition Encode (e : presenceNotify) : Handler (string * bool) :=
  match json_Marshal_notify e with
  | inl err =>
      emit (EffLogError "presence" "encoding presence notification" err) ;;
      ret ("", false)
  | inr encoded => ret (encoded, true)
  end.

End PresenceNotify.

(* ------------------------------------------------------------------ *)
(** ** More of the specification's vocabulary *)

(** The presence information of a subscriber, for a local connection. *)
Definition presence_of (s : Subscriber) : option presenceInfo :=
  match s with
  | LocalConn id user => Some {| pi_ID := id; pi_Username := user |}
  | RemotePeer _ => None
  end.

(** Two connections that differ at most in their record of outgoing
    calls, the second having made the calls [calls] after the first. *)
Definition after_calls (calls : list Effect) (c c' : Conn) : Prop :=
  ID c' = ID c
  /\ username c' = username c
  /\ links c' = links c
  /\ subscriptions c' = subscriptions c
  /\ effects c' = (effects c ++ calls)%list.

(** Every name of a link of the connection is a shortcut. *)
Definition links_are_shortcuts (c : Conn) : Prop :=
  forall (entries : gmap string string) (name K : string),
    links c = Some entries -> entries !! name = Some K -> shortcut_grammar name.

(** The errors a publish can be refused with. *)
Definition publish_error (e : Error) : Prop :=
  e = ErrBadRequest \/ e = ErrForbidden \/ e = ErrUnauthorized
  \/ e = ErrUnauthorizedExt.

(* ------------------------------------------------------------------ *)
(** ** A second deployment

    The sample deployment with a cluster that answers surveys, codecs
    that marshal, and more request bodies. *)

Module Scenario.

Definition writer : Key :=
  {| Contract := 1; KeyPermissions := 2 + 4 + 8 + 16 + 32;
     IsMaster := false; IsExpired := false |}.

Definition reader : Key :=
  {| Contract := 1; KeyPermissions := 2 + 16; IsMaster := false; IsExpired := false |}.

Definition extend : Key :=
  {| Contract := 1; KeyPermissions := 2 + 4 + 64; IsMaster := false; IsExpired := false |}.

Definition broken : Key :=
  {| Contract := 7; KeyPermissions := 2 + 16; IsMaster := false; IsExpired := false |}.

Definition keygen_bodies : list (string * keyGenRequest) :=
  [ ("keygen extend", {| kg_Key := "extend"; kg_Channel := "a/b/"; kg_Type := "r"; kg_TTL := 60 |});
    ("keygen rw", {| kg_Key := "master"; kg_Channel := "a/b/"; kg_Type := "rw"; kg_TTL := 0 |}) ].

Definition link_bodies : list (string * linkRequest) :=
  [ ("link a1", {| lk_Name := "a1"; lk_Key := "writer"; lk_Channel := "a/b/";
                   lk_Subscribe := true; lk_Private := false |});
    ("link b2", {| lk_Name := "b2"; lk_Key := "writer"; lk_Channel := "a/b/";
                   lk_Subscribe := false; lk_Private := false |});
    ("link abc", {| lk_Name := "abc"; lk_Key := "writer"; lk_Channel := "a/b/";
                    lk_Subscribe := true; lk_Private := false |}) ].

Definition presence_bodies : list (string * presenceRequest) :=
  [ ("presence watch", {| pr_Key := "writer"; pr_Channel := "a/b"; pr_Status := true;
                          pr_Changes := Some true |});
    ("presence stale", {| pr_Key := "stale"; pr_Channel := "a/b/"; pr_Status := true;
                          pr_Changes := None |}) ].

Definition alice : presenceInfo := {| pi_ID := "c7"; pi_Username := "alice" |}.
Definition bob : presenceInfo := {| pi_ID := "c8"; pi_Username := "bob" |}.
Definition carol : presenceInfo := {| pi_ID := "c9"; pi_Username := "carol" |}.

(** The peers answer twice in time, with one answer garbled on the way. *)
Definition awaiter : Awaiter :=
  fun timeout =>
    if timeout <? 1000000000 then [] else ["from node B"; "garbled"; "from node C"].

Definition service : Service := {|
  authorize := @authorize Sample.service;
  contracts_Get := @contracts_Get Sample.service;
  Validate := @Validate Sample.service;
  storage_Query := @storage_Query Sample.service;
  publish_size := @publish_size Sample.service;
  subscriptions_Lookup trie ssid :=
    (@subscriptions_Lookup Sample.service trie ssid ++ [RemotePeer "node B"])%list;
  Survey queryType req :=
    if String.eqb queryType "presence" then inr awaiter else inl "unknown survey";
  RetainedTTL := @RetainedTTL Sample.service;
  NewSsidForPresence := @NewSsidForPresence Sample.service;
  json_Unmarshal_keyGen body _ := Sample.assoc body keygen_bodies;
  json_Unmarshal_link body _ := Sample.assoc body link_bodies;
  json_Unmarshal_presence body _ := Sample.assoc body presence_bodies;
  binary_Marshal_ssid ssid := Some "an ssid";
  binary_Unmarshal_ssid payload :=
    if String.eqb payload "an ssid" then Some [1; 10; 11] else None;
  binary_Marshal_presence who := Some (String.concat "," (map pi_ID who));
  binary_Unmarshal_presence answer :=
    if String.eqb answer "from node B" then Some [alice; bob]
    else if String.eqb answer "from node C" then Some [carol]
    else None
|}.

(** The fresh connection after the failed replay on [broken/a/b/]. *)
Definition after_failed_replay : Conn :=
  {| ID := "c1"; username := "alice"; links := Some ∅;
     subscriptions := {[ ([7; 10; 11], "a/b/", "c1") ]};
     effects := [EffLogError "conn" "query last messages" "store unavailable"] |}.

(** The fresh connection after a subscription to [reader/a/b/]. *)
Definition after_subscribe : Conn :=
  {| ID := "c1"; username := "alice"; links := Some ∅;
     subscriptions := {[ ([1; 10; 11], "a/b/", "c1") ]};
     effects := [EffSend Sample.stored_message; EffTrack {| ContractID := 1 |}] |}.

(** A connection whose link map is nil. *)
Definition unlinked : Conn :=
  {| ID := "c1"; username := "alice"; links := None;
     subscriptions := ∅; effects := [] |}.

End Scenario.


(* ------------------------------------------------------------------ *)
(** ** Properties of the handlers *)

Lemma to_int64_small (z : Z) : - 2 ^ 63 <= z < 2 ^ 63 -> to_int64 z = z.
Proof.
  intros Hz. unfold to_int64.
  rewrite Z.mod_small by lia. lia.
Qed.

(** The multiplication in [expires] cannot overflow: a 32-bit number of
    seconds fits a 64-bit number of nanoseconds. *)
Lemma seconds_fit (ttl : Z) : is_int32 ttl -> to_int64 (ttl * Second) = ttl * Second.
Proof.
  unfold is_int32, Second. intros Httl.
  apply to_int64_small. lia.
Qed.

(* ------------------------------------------------------------------ *)
(** ** The shortcut grammar *)

Lemma shortcut_class (c : ascii) :
  Regexp.in_class c [("a", "z"); ("A", "Z"); ("0", "9")]%char = true
  <-> alphanumeric c.
Proof.
  unfold Regexp.in_class, alphanumeric. cbn [existsb].
  rewrite !orb_true_iff. unfold Regexp.in_range. cbn [fst snd].
  rewrite !andb_true_iff, !N.leb_le.
  change (N_of_ascii "a") with 97%N. change (N_of_ascii "z") with 122%N.
  change (N_of_ascii "A") with 65%N. change (N_of_ascii "Z") with 90%N.
  change (N_of_ascii "0") with 48%N. change (N_of_ascii "9") with 57%N.
  intuition lia.
Qed.

Lemma alphanumeric_in_class (c : ascii) :
  alphanumeric c -> Regexp.in_class c [("a", "z"); ("A", "Z"); ("0", "9")]%char = true.
Proof. apply shortcut_class. Qed.

(** The compiled expression accepts exactly the names of the grammar. *)
Lemma shortcut_Match_true (name : string) :
  Regexp.Match shortcut name = true <-> shortcut_grammar name.
Proof.
  unfold shortcut_grammar, Regexp.Match, shortcut.
  cbn [Regexp.begin_text Regexp.end_text Regexp.body Regexp.run
       Regexp.exactly Regexp.at_most Nat.sub].
  pose proof alphanumeric_in_class as Hclass.
  set (cls := [("a", "z"); ("A", "Z"); ("0", "9")]%char) in *.
  destruct name as [| a [| b [| d rest]]];
    cbn [existsb flat_map app String.length list_ascii_of_string Regexp.is_empty orb].
  - split; [discriminate | lia].
  - destruct (Regexp.in_class a cls) eqn:Ha; cbn -[Regexp.in_class].
    + split; [| reflexivity]. intros _. split; [lia |].
      constructor; [by apply shortcut_class | constructor].
    + split; [discriminate |]. intros [_ Hall].
      apply Forall_cons_1 in Hall as [Hc _]. apply Hclass in Hc. congruence.
  - destruct (Regexp.in_class a cls) eqn:Ha; cbn -[Regexp.in_class].
    + destruct (Regexp.in_class b cls) eqn:Hb; cbn -[Regexp.in_class].
      * split; [| reflexivity]. intros _. split; [lia |].
        do 2 (constructor; [by apply shortcut_class |]). constructor.
      * split; [discriminate |]. intros [_ Hall].
        apply Forall_cons_1 in Hall as [_ Hall].
        apply Forall_cons_1 in Hall as [Hc _]. apply Hclass in Hc. congruence.
    + split; [discriminate |]. intros [_ Hall].
      apply Forall_cons_1 in Hall as [Hc _]. apply Hclass in Hc. congruence.
  - split; [| cbn; lia].
    destruct (Regexp.in_class a cls); cbn -[Regexp.in_class]; [| discriminate].
    destruct (Regexp.in_class b cls); cbn -[Regexp.in_class]; discriminate.
Qed.

(** The names the grammar leaves out: the empty name, a name of more
    than two characters, a name with a character that is neither a
    letter nor a digit. *)
Lemma outside_shortcut_grammar (name : string) :
  name = ""
  \/ (2 < String.length name)%nat
  \/ Exists (fun c => ~ alphanumeric c) (list_ascii_of_string name) ->
  ~ shortcut_grammar name.
Proof.
  intros [-> | [Hlong | Hother]] [Hlen Hall].
  - cbn in Hlen. lia.
  - lia.
  - apply Exists_exists in Hother as (c & Hin & Hc).
    rewrite Forall_forall in Hall. apply Hc, Hall, Hin.
Qed.

Lemma shortcut_Match_false (name : string) :
  Regexp.Match shortcut name = false <-> ~ shortcut_grammar name.
Proof.
  rewrite <- shortcut_Match_true.
  destruct (Regexp.Match shortcut name); split; congruence.
Qed.


Section AccessFacts.
Context {perms : Permissions}.

Lemma access_step_spec (required : Z) (c : ascii) :
  access_step required c =
  match permission_of c with
  | Some flag => Z.lor required flag
  | None => required
  end.
Proof.
  unfold access_step.
  repeat match goal with
         | |- context [Ascii.eqb c ?x] =>
             destruct (Ascii.eqb_spec c x) as [-> | ?]; [reflexivity |]
         end.
  destruct c as [[] [] [] [] [] [] [] []]; try reflexivity; congruence.
Qed.

Lemma fold_lor_shift (flags : list Z) (a b : Z) :
  fold_right Z.lor (Z.lor a b) flags = Z.lor b (fold_right Z.lor a flags).
Proof.
  induction flags as [| f flags IH]; cbn [fold_right].
  - apply Z.lor_comm.
  - rewrite IH, !Z.lor_assoc. f_equal. apply Z.lor_comm.
Qed.

(** The loop of [access], started from any set of flags. *)
Lemma access_loop_spec (type : string) (required : Z) :
  access_loop required type =
  fold_right Z.lor required (omap permission_of (list_ascii_of_string type)).
Proof.
  revert required.
  induction type as [| c rest IH]; intros required; cbn [access_loop].
  - reflexivity.
  - rewrite IH, access_step_spec.
    cbn [list_ascii_of_string omap list_omap].
    destruct (permission_of c) as [flag |]; cbn [fold_right].
    + apply fold_lor_shift.
    + reflexivity.
Qed.

(** [access] computes what the specification asks for. *)
Lemma access_spec (m : keyGenRequest) : access m = requested_access (kg_Type m).
Proof. apply access_loop_spec. Qed.

Lemma lor_uint8 (a b : Z) : is_uint8 a -> is_uint8 b -> is_uint8 (Z.lor a b).
Proof.
  unfold is_uint8. intros [Ha0 Ha] [Hb0 Hb].
  split; [by apply Z.lor_nonneg |].
  destruct (Z.eq_dec (Z.lor a b) 0) as [-> | Hne]; [lia |].
  apply Z.log2_lt_pow2; [pose proof (proj2 (Z.lor_nonneg a b) (conj Ha0 Hb0)); lia |].
  rewrite Z.log2_lor by assumption.
  apply Z.max_lub_lt.
  - destruct (Z.eq_dec a 0) as [-> | ?]; [cbn; lia | apply Z.log2_lt_pow2; lia].
  - destruct (Z.eq_dec b 0) as [-> | ?]; [cbn; lia | apply Z.log2_lt_pow2; lia].
Qed.

(** [access] stays within [uint8]: the OR never needs to wrap. *)
Lemma access_is_uint8 (m : keyGenRequest) : flags_are_uint8 -> is_uint8 (access m).
Proof.
  unfold flags_are_uint8. rewrite !Forall_cons. 
  intros (HN & HR & HW & HS & HL & HP & HE & HX & _).
  unfold access. generalize (kg_Type m) AllowNone HN. clear HN.
  intros type.
  induction type as [| c rest IH]; intros required Hreq; cbn [access_loop].
  - exact Hreq.
  - apply IH. rewrite access_step_spec.
    destruct (permission_of c) as [flag |] eqn:Hflag; [| exact Hreq].
    apply lor_uint8; [exact Hreq |].
    unfold permission_of in Hflag.
    repeat match type of Hflag with
           | context [match ?x with _ => _ end] => destruct x
           end; try discriminate; injection Hflag as <-; assumption.
Qed.

(** With a 32-bit TTL, [expires] computes what the specification asks
    for. *)
Lemma expires_spec (now : Time) (m : keyGenRequest) :
  is_int32 (kg_TTL m) -> expires now m = requested_expiry now (kg_TTL m).
Proof.
  intros Httl. unfold expires, requested_expiry, time_Unix, time_Add.
  destruct (kg_TTL m =? 0); [reflexivity |].
  rewrite (seconds_fit _ Httl). reflexivity.
Qed.

End AccessFacts.


Section HandlerFacts.
Context {perms : Permissions} {sec : Security} {keys : KeyProvider} {svc : Service}.

Lemma is_invalid_false (channel : Channel) :
  ChannelType channel <> ChannelInvalid -> is_invalid channel = false.
Proof. intros Hne. unfold is_invalid. by apply bool_decide_eq_false. Qed.

Lemma is_invalid_true (channel : Channel) :
  ChannelType channel = ChannelInvalid -> is_invalid channel = true.
Proof. intros Heq. unfold is_invalid. by apply bool_decide_eq_true. Qed.

Lemma is_static_true (channel : Channel) :
  ChannelType channel = ChannelStatic -> is_static channel = true.
Proof. intros Heq. unfold is_static. by apply bool_decide_eq_true. Qed.

Lemma is_static_false (channel : Channel) :
  ChannelType channel <> ChannelStatic -> is_static channel = false.
Proof. intros Hne. unfold is_static. by apply bool_decide_eq_false. Qed.

Lemma static_is_valid (channel : Channel) :
  ChannelType channel = ChannelStatic -> is_invalid channel = false.
Proof. intros Heq. apply is_invalid_false. rewrite Heq. discriminate. Qed.

(** The test that routes a publish to the emitter requests. *)
Lemma emitter_key_test (key : string) :
  (len key =? 7) && String.eqb key "emitter" = String.eqb key "emitter".
Proof.
  destruct (String.eqb key "emitter") eqn:Hkey; [| apply andb_false_r].
  apply String.eqb_eq in Hkey. subst key. reflexivity.
Qed.

Lemma not_emitter_key (key : string) :
  key <> "emitter" -> (len key =? 7) && String.eqb key "emitter" = false.
Proof.
  intros Hne. rewrite emitter_key_test. by apply String.eqb_neq.
Qed.

(** The TTL of a message that [onPublish] has just built. *)
Lemma resolve_ttl_precedence (packet : Publish) (channel : Channel)
    (ssid : Ssid) (path payload : string) :
  exists ttl : Z,
    resolve_ttl packet channel (message_New ssid path payload)
    = {| MsgSsid := ssid; MsgChannel := path; MsgPayload := payload; MsgTTL := ttl |}
    /\ (snd (TTL channel) = true -> 0 < fst (TTL channel) ->
        ttl = to_uint32 (fst (TTL channel)))
    /\ (snd (TTL channel) = false \/ fst (TTL channel) <= 0 ->
        ttl = if Retain packet then RetainedTTL else 0).
Proof.
  unfold resolve_ttl, message_New.
  destruct (TTL channel) as [ttl ok]. cbn [fst snd].
  destruct (ok && (0 <? ttl)) eqn:Hguard.
  - apply andb_true_iff in Hguard as [-> Hpos]. apply Z.ltb_lt in Hpos.
    exists (to_uint32 ttl). split; [by destruct (Retain packet) |].
    split; [reflexivity |]. intros [Hok | Hle]; [discriminate | lia].
  - exists (if Retain packet then RetainedTTL else 0).
    split; [by destruct (Retain packet) |].
    split; [| reflexivity]. intros -> Hpos.
    apply Z.ltb_lt in Hpos. rewrite Hpos in Hguard. discriminate.
Qed.

End HandlerFacts.

(** Unfolds the plumbing of [Handler] in the goal. *)
Ltac run_handler :=
  unfold bind, ret, self, update, emit, Send, track, Subscribe, Unsubscribe,
    sendResponse; cbn beta iota.

Section Claims.
Context {perms : Permissions} {sec : Security} {keys : KeyProvider} {svc : Service}.

(** C1. A key whose Extend bit is set cannot subscribe or publish.
    When [onSubscribe] reaches the Read authorization and the key passes
    it, the handler returns [ErrUnauthorizedExt] and leaves the
    connection, the trie and the record of outgoing calls as they were;
    when [onPublish] reaches the Write authorization and the key passes
    it, the handler returns [ErrUnauthorizedExt] and nothing is built,
    stored or published. *)
Theorem extend_key_is_refused (c : Conn) (now : Time) :
  (forall mqttTopic contract key,
      ChannelType (ParseChannel mqttTopic) <> ChannelInvalid ->
      authorize (ParseChannel mqttTopic) AllowRead = Some (contract, key) ->
      HasPermission key AllowExtend = true ->
      onSubscribe mqttTopic c = Some (Some ErrUnauthorizedExt, c))
  /\
  (forall packet contract key,
      let channel := ParseChannel (resolve_topic c (Topic packet)) in
      ChannelType channel = ChannelStatic ->
      ChannelKey channel <> "emitter" ->
      authorize channel AllowWrite = Some (contract, key) ->
      HasPermission key AllowExtend = true ->
      onPublish now packet c = Some (Some ErrUnauthorizedExt, c)).
Proof.
  split.
  - intros mqttTopic contract key Hvalid Hauth Hext.
    unfold onSubscribe.
    rewrite (is_invalid_false _ Hvalid), Hauth, Hext.
    reflexivity.
  - intros packet contract key channel Hstatic Hkey Hauth Hext.
    unfold onPublish. run_handler. fold channel.
    rewrite (static_is_valid _ Hstatic), (is_static_true _ Hstatic).
    cbn [negb]. rewrite (not_emitter_key _ Hkey), Hauth, Hext.
    reflexivity.
Qed.

(** C6. A publish whose topic, after the link has been resolved, parses
    to a valid channel that is not static returns [ErrForbidden]. The
    run leaves the connection as it was: no call of [service.publish]
    (nor any other outgoing call) is made. *)
Theorem publish_to_wildcard_is_forbidden (c : Conn) (now : Time) (packet : Publish) :
  ChannelType (ParseChannel (resolve_topic c (Topic packet))) <> ChannelInvalid ->
  ChannelType (ParseChannel (resolve_topic c (Topic packet))) <> ChannelStatic ->
  onPublish now packet c = Some (Some ErrForbidden, c)
  /\ forall result c',
       onPublish now packet c = Some (result, c') ->
       effects c' = effects c
       /\ forall msg exclude,
            In (EffPublish msg exclude) (effects c') ->
            In (EffPublish msg exclude) (effects c).
Proof.
  intros Hvalid Hstatic.
  assert (Hrun : onPublish now packet c = Some (Some ErrForbidden, c)).
  { unfold onPublish. run_handler.
    rewrite (is_invalid_false _ Hvalid), (is_static_false _ Hstatic).
    reflexivity. }
  split; [exact Hrun |].
  intros result c' Hc'.
  rewrite Hrun in Hc'. injection Hc' as _ <-.
  split; [reflexivity | tauto].
Qed.

(** C10. [onUnsubscribe] checks the Read authorization only. For a valid
    channel and a key that passes it, whether or not the key has the
    Extend bit, the handler returns no error, removes the
    [(ssid, channel, connection)] entry from the trie and records the
    contract; it never returns [ErrUnauthorizedExt]. Here [extend] is
    the outcome of the Extend test on the key, [true] for a key with
    the Extend bit. *)
Theorem unsubscribe_ignores_extend (c : Conn) (mqttTopic : string)
    (contract : ContractInfo) (key : Key) (extend : bool) :
  let channel := ParseChannel mqttTopic in
  let entry := (NewSsid (Contract key) (Query channel), ChannelPath channel, ID c) in
  ChannelType channel <> ChannelInvalid ->
  authorize channel AllowRead = Some (contract, key) ->
  HasPermission key AllowExtend = extend ->
  exists c',
    onUnsubscribe mqttTopic c = Some (None, c')
    /\ subscriptions c' = subscriptions c ∖ {[ entry ]}
    /\ (entry ∉ subscriptions c')
    /\ links c' = links c
    /\ effects c' = (effects c ++ [EffTrack contract])%list.
Proof.
  intros channel entry Hvalid Hauth _.
  unfold onUnsubscribe. fold channel.
  rewrite (is_invalid_false _ Hvalid), Hauth.
  run_handler.
  eexists. split; [reflexivity |].
  cbn. fold entry. repeat split.
  apply not_elem_of_difference. right. by apply elem_of_singleton.
Qed.

(** C4. A failing store query does not undo the subscription. For a
    valid channel and a key that passes the Read authorization, has no
    Extend bit and has the Load permission, if the query of the store
    fails then [onSubscribe] returns [ErrServerError], and the
    [(ssid, channel, connection)] entry that was inserted before the
    query is in the trie of the connection it leaves behind. *)
Theorem failed_replay_keeps_subscription (c : Conn) (mqttTopic : string)
    (contract : ContractInfo) (key : Key) (err : string) :
  let channel := ParseChannel mqttTopic in
  let ssid := NewSsid (Contract key) (Query channel) in
  let entry := (ssid, ChannelPath channel, ID c) in
  ChannelType channel <> ChannelInvalid ->
  authorize channel AllowRead = Some (contract, key) ->
  HasPermission key AllowExtend = false ->
  HasPermission key AllowLoad = true ->
  storage_Query ssid (fst (Window channel)) (snd (Window channel))
                (replay_limit channel) = inl err ->
  exists c',
    onSubscribe mqttTopic c = Some (Some ErrServerError, c')
    /\ subscriptions c' = {[ entry ]} ∪ subscriptions c
    /\ (entry ∈ subscriptions c')
    /\ links c' = links c
    /\ effects c' =
         (effects c ++ [EffLogError "conn" "query last messages" err])%list.
Proof.
  intros channel ssid entry Hvalid Hauth Hext Hload Hquery.
  unfold onSubscribe. fold channel.
  rewrite (is_invalid_false _ Hvalid), Hauth, Hext. fold ssid.
  run_handler. rewrite Hload.
  destruct (Window channel) as [t0 t1]. cbn [fst snd] in Hquery.
  rewrite Hquery.
  eexists. split; [reflexivity |].
  cbn. fold entry. repeat split.
  apply elem_of_union. left. by apply elem_of_singleton.
Qed.

(** C8. A link request whose name is not one or two ASCII letters or
    digits (the empty name, a name of three or more characters, a name
    with any other character) is answered with [ErrLinkInvalid], and
    the connection, its links included, is left as it was. *)
Theorem invalid_shortcut_is_rejected (c : Conn) (payload : string)
    (request : linkRequest) :
  json_Unmarshal_link payload linkRequest_zero = Some request ->
  ~ shortcut_grammar (lk_Name request) ->
  onLink payload c = Some ((Some (RespError ErrLinkInvalid), false), c)
  /\ forall result c', onLink payload c = Some (result, c') -> links c' = links c.
Proof.
  intros Hbody Hname.
  assert (Hrun : onLink payload c
                 = Some ((Some (RespError ErrLinkInvalid), false), c)).
  { unfold onLink. rewrite Hbody.
    rewrite (proj2 (shortcut_Match_false _) Hname). reflexivity. }
  split; [exact Hrun |].
  intros result c' Hc'. rewrite Hrun in Hc'. by injection Hc' as _ <-.
Qed.


(** C3, as the code has it. A topic of at most two bytes that arrives
    on a connection whose link map is not nil is replaced by what the
    map holds under that name: the stored channel string when a link
    with that name exists, the empty string when none does. A topic of
    more than two bytes, and any topic on a connection whose link map
    is nil, is parsed as it arrived. [onPublish] reads the topic of the
    packet only through this resolution. *)
Theorem short_topic_is_read_through_links (c : Conn) (topic : string) :
  (len topic <= 2 ->
   forall entries : gmap string string,
     links c = Some entries ->
     (forall K, entries !! topic = Some K -> resolve_topic c topic = K)
     /\ (entries !! topic = None -> resolve_topic c topic = ""))
  /\ (links c = None -> resolve_topic c topic = topic)
  /\ (2 < len topic -> resolve_topic c topic = topic)
  /\ (forall now p1 p2,
        Topic p1 = topic ->
        resolve_topic c (Topic p2) = resolve_topic c topic ->
        Payload p2 = Payload p1 ->
        MessageID p2 = MessageID p1 ->
        Retain p2 = Retain p1 ->
        onPublish now p2 c = onPublish now p1 c).
Proof.
  split; [| split; [| split]].
  - intros Hshort entries Hlinks. unfold resolve_topic.
    apply Z.leb_le in Hshort. rewrite Hshort, Hlinks. cbn.
    split; [intros K HK | intros HK]; by rewrite HK.
  - intros Hnil. unfold resolve_topic. rewrite Hnil. cbn.
    by rewrite andb_false_r.
  - intros Hlong. unfold resolve_topic.
    apply Z.leb_gt in Hlong. by rewrite Hlong.
  - intros now p1 p2 <- Htopic Hpayload Hid Hretain.
    unfold onPublish, resolve_ttl. run_handler.
    by rewrite Htopic, Hpayload, Hid, Hretain.
Qed.

(** C2, as the code has it. In a publish that passes the checks, the
    message that is stored and published has its TTL resolved in this
    order: a [ttl] option of the channel that is greater than zero gives
    that value, truncated to 32 bits, whatever the retain flag; when the
    option is absent or not greater than zero, the retain flag gives
    [RetainedTTL]; otherwise the message is transient (TTL 0). The
    message is written to the store exactly when its TTL is greater
    than zero and the key has the Store permission. *)
Theorem publish_ttl_resolution (c : Conn) (now : Time) (packet : Publish)
    (contract : ContractInfo) (key : Key) :
  let channel := ParseChannel (resolve_topic c (Topic packet)) in
  ChannelType channel = ChannelStatic ->
  ChannelKey channel <> "emitter" ->
  authorize channel AllowWrite = Some (contract, key) ->
  HasPermission key AllowExtend = false ->
  exists (ttl : Z) (c' : Conn),
    let msg := {| MsgSsid := NewSsid (Contract key) (Query channel);
                  MsgChannel := ChannelPath channel;
                  MsgPayload := Payload packet;
                  MsgTTL := ttl |} in
    let exclude := if Exclude channel then ID c else "" in
    onPublish now packet c = Some (None, c')
    /\ (snd (TTL channel) = true -> 0 < fst (TTL channel) ->
        ttl = to_uint32 (fst (TTL channel)))
    /\ (snd (TTL channel) = false \/ fst (TTL channel) <= 0 ->
        ttl = if Retain packet then RetainedTTL else 0)
    /\ effects c' =
         (effects c
          ++ (if (0 <? ttl) && HasPermission key AllowStore
              then [EffStore msg] else [])
          ++ [EffPublish msg exclude;
              EffTrack contract;
              EffAddIngress contract (len (Payload packet));
              EffAddEgress contract (publish_size (subscriptions c) msg exclude)])%list
    /\ subscriptions c' = subscriptions c
    /\ links c' = links c.
Proof.
  intros channel Hstatic Hkey Hauth Hext.
  destruct (resolve_ttl_precedence packet channel
              (NewSsid (Contract key) (Query channel))
              (ChannelPath channel) (Payload packet))
    as (ttl & Hmsg & Hoption & Hretain).
  exists ttl.
  unfold onPublish. run_handler. fold channel.
  rewrite (static_is_valid _ Hstatic), (is_static_true _ Hstatic).
  cbn [negb]. rewrite (not_emitter_key _ Hkey), Hauth, Hext, Hmsg.
  unfold Stored. cbn [MsgTTL].
  destruct ((0 <? ttl) && HasPermission key AllowStore);
    (eexists; split; [reflexivity |]);
    (split; [exact Hoption |]);
    (split; [exact Hretain |]);
    cbn; rewrite <- ?app_assoc; repeat split.
Qed.

(** C5, as the code has it. For a keygen request whose body parses,
    whose TTL is a 32-bit number and whose parent key decrypts: when the
    parent is a master key that is not expired, [onKeyGen] asks
    [CreateKey] for a key with the permissions that are the OR of the
    bits the characters of [type] stand for (unknown characters
    ignored) and with the expiry that is the epoch for [ttl = 0] and
    [now + ttl] seconds otherwise; when [CreateKey] mints a key the
    response has status 200 and carries that key and the channel of the
    request, and when [CreateKey] fails its error is the response. When
    the parent key is neither a master key nor has the Extend
    permission, the response is [ErrUnauthorized]. *)
Theorem keygen_from_master (c : Conn) (now : Time) (payload : string)
    (message : keyGenRequest) (parentKey : Key) :
  json_Unmarshal_keyGen payload keyGenRequest_zero = Some message ->
  DecryptKey (kg_Key message) = Some parentKey ->
  is_int32 (kg_TTL message) ->
  let minted :=
    CreateKey (kg_Key message) (kg_Channel message)
              (requested_access (kg_Type message))
              (requested_expiry now (kg_TTL message)) in
  (IsExpired parentKey = false -> IsMaster parentKey = true ->
   (forall key,
       minted = inr key ->
       onKeyGen now payload c =
       Some ((Some (RespKeyGen {| kgr_Request := 0; kgr_Status := 200;
                                  kgr_Key := key;
                                  kgr_Channel := kg_Channel message |}),
              true), c))
   /\ (forall err,
         minted = inl err ->
         onKeyGen now payload c = Some ((Some (RespError err), false), c)))
  /\ (IsMaster parentKey = false ->
      HasPermission parentKey AllowExtend = false ->
      onKeyGen now payload c = Some ((Some (RespError ErrUnauthorized), false), c)).
Proof.
  intros Hbody Hkey Httl minted.
  unfold onKeyGen. rewrite Hbody, Hkey.
  rewrite access_spec, (expires_spec _ _ Httl). fold minted.
  split.
  - intros -> ->.
    split; [intros key -> | intros err ->]; reflexivity.
  - intros -> ->. by destruct (IsExpired parentKey).
Qed.

(** C7, as the code has it. For a presence request whose body parses:
    when the key does not decrypt, lacks the Presence permission or is
    expired, the response is [ErrUnauthorized]; when the key passes and
    its contract is absent, the response is [ErrNotFound]; and when the
    key passes, the contract validates it and the topic made of
    ["emitter/"] and the channel parses to a valid channel, the changes
    toggle is applied and then a response with the event ["status"] and
    the gathered presence is returned if the status field is true, and
    no response at all, with success, if it is false. *)
Theorem presence_outcomes (c : Conn) (now : Time) (payload : string)
    (msg : presenceRequest) :
  json_Unmarshal_presence payload presenceRequest_default = Some msg ->
  (DecryptKey (pr_Key msg) = None
   \/ (exists key, DecryptKey (pr_Key msg) = Some key
                   /\ (HasPermission key AllowPresence = false
                       \/ IsExpired key = true)) ->
   onPresence now payload c = Some ((Some (RespError ErrUnauthorized), false), c))
  /\
  (forall key,
      DecryptKey (pr_Key msg) = Some key ->
      HasPermission key AllowPresence = true ->
      IsExpired key = false ->
      (contracts_Get (Contract key) = None ->
       onPresence now payload c = Some ((Some (RespError ErrNotFound), false), c))
      /\
      (forall contract,
          contracts_Get (Contract key) = Some contract ->
          Validate contract key = true ->
          let channel := ParseChannel ("emitter/" ++ presence_channel msg) in
          let ssid := NewSsid (Contract key) (Query channel) in
          let entry := (NewSsidForPresence ssid, "", ID c) in
          let c' := match pr_Changes msg with
                    | Some true => set_subscriptions ({[ entry ]} ∪ subscriptions c) c
                    | Some false => set_subscriptions (subscriptions c ∖ {[ entry ]}) c
                    | None => c
                    end in
          ChannelType channel <> ChannelInvalid ->
          (pr_Status msg = true ->
           onPresence now payload c =
           Some ((Some (RespPresence
                          {| prr_Request := 0;
                             prr_Time := Unix now;
                             prr_Event := presenceStatusEvent;
                             prr_Channel := presence_channel msg;
                             prr_Who := getAllPresence (subscriptions c') ssid |}),
                  true), c'))
          /\ (pr_Status msg = false ->
              onPresence now payload c = Some ((None, true), c'))
          /\ presenceEvent_string presenceStatusEvent = "status")).
Proof.
  intros Hbody.
  split.
  - unfold onPresence. rewrite Hbody.
    intros [-> | (key & -> & [Hperm | Hexp])]; [reflexivity | |].
    + by rewrite Hperm.
    + rewrite Hexp. by rewrite orb_true_r.
  - intros key Hkey Hperm Hexp.
    split.
    + intros Hcontract. unfold onPresence.
      by rewrite Hbody, Hkey, Hperm, Hexp, Hcontract.
    + intros contract Hcontract Hvalidate channel ssid entry c' Hvalid.
      unfold onPresence.
      rewrite Hbody, Hkey, Hperm, Hexp, Hcontract, Hvalidate. cbn [negb orb].
      assert (Hchannel : (if negb (has_suffix_slash (pr_Channel msg))
                          then pr_Channel msg ++ "/" else pr_Channel msg)
                         = presence_channel msg).
      { unfold presence_channel. by destruct (has_suffix_slash _). }
      rewrite Hchannel. fold channel.
      rewrite (is_invalid_false _ Hvalid). fold ssid.
      run_handler.
      split; [| split; [| reflexivity]]; intros ->; subst c' entry;
        by destruct (pr_Changes msg) as [[] |].
Qed.

End Claims.

(* ------------------------------------------------------------------ *)
(** ** Further properties of the handlers *)

(** Unfolds the plumbing of [Handler] in a hypothesis. *)
Ltac run_handler_in H :=
  unfold bind, ret, self, update, emit, Send, track, Subscribe, Unsubscribe,
    sendResponse, panic in H; cbn beta iota in H.

(** The same, up to the calls of [Send], in the goal and in a hypothesis. *)
Ltac run_steps :=
  unfold Subscribe, Unsubscribe, sendResponse, track, emit, update, panic,
    bind, ret, self; cbn beta iota.

Ltac run_steps_in H :=
  unfold Subscribe, Unsubscribe, sendResponse, track, emit, update, panic,
    bind, ret, self in H; cbn beta iota in H.

(** Splits on the first test of a run in a hypothesis. *)
Ltac split_run H :=
  match type of H with
  | context [match ?x with _ => _ end] => destruct x eqn:?
  end.

Section Coverage.
Context {perms : Permissions} {sec : Security} {keys : KeyProvider} {svc : Service}.

Lemma for_each_Send (msgs : list Message) (c : Conn) :
  exists c', for_each Send msgs c = Some (tt, c')
             /\ after_calls (map EffSend msgs) c c'.
Proof.
  revert c. induction msgs as [| m msgs IH]; intros c; cbn [for_each map].
  - exists c. split; [reflexivity |]. unfold after_calls.
    by rewrite app_nil_r.
  - unfold bind at 1. unfold Send at 1, emit, update.
    destruct (IH (add_effect (EffSend m) c)) as (c' & Hrun & Hid & Huser & Hlinks & Hsubs & Heff).
    exists c'. split; [exact Hrun |].
    unfold after_calls. cbn in *. rewrite <- app_assoc in Heff. by repeat split.
Qed.

(** X1. A refused subscription leaves no trace, but for the failed
    replay. When [onSubscribe] returns an error, the error is one of
    [ErrBadRequest], [ErrUnauthorized], [ErrUnauthorizedExt] and
    [ErrServerError]; for the first three the connection, its links, the
    trie and the record of outgoing calls are exactly as before, and
    [ErrServerError] is returned only for a key that passed the Read
    authorization and has the Load permission. *)
Theorem refused_subscribe_is_clean (c c' : Conn) (mqttTopic : string) (e : Error) :
  onSubscribe mqttTopic c = Some (Some e, c') ->
  (e = ErrBadRequest \/ e = ErrUnauthorized \/ e = ErrUnauthorizedExt
   \/ e = ErrServerError)
  /\ (e <> ErrServerError -> c' = c)
  /\ (e = ErrServerError ->
      exists contract key,
        authorize (ParseChannel mqttTopic) AllowRead = Some (contract, key)
        /\ HasPermission key AllowExtend = false
        /\ HasPermission key AllowLoad = true).
Proof.
  unfold onSubscribe. intros Hrun.
  destruct (is_invalid (ParseChannel mqttTopic)).
  { injection Hrun as <- <-. split; [tauto |]. split; [done | discriminate]. }
  destruct (authorize (ParseChannel mqttTopic) AllowRead) as [[contract key] |].
  2: { injection Hrun as <- <-. split; [tauto |]. split; [done | discriminate]. }
  destruct (HasPermission key AllowExtend) eqn:Hext.
  { injection Hrun as <- <-. split; [tauto |]. split; [done | discriminate]. }
  run_steps_in Hrun.
  destruct (HasPermission key AllowLoad) eqn:Hload.
  2: { discriminate. }
  destruct (Window (ParseChannel mqttTopic)) as [t0 t1].
  destruct (storage_Query _ t0 t1 _) as [err | msgs].
  - injection Hrun as <- <-. split; [tauto |]. split; [done |].
    intros _. exists contract, key. done.
  - match type of Hrun with
    | context [for_each Send msgs ?c1] =>
        destruct (for_each_Send msgs c1) as (c2 & Hsend & _); rewrite Hsend in Hrun
    end.
    discriminate.
Qed.

(** X2. A refused unsubscription leaves no trace: when [onUnsubscribe]
    returns an error it is [ErrBadRequest] or [ErrUnauthorized], and the
    connection is exactly as before. *)
Theorem refused_unsubscribe_is_clean (c c' : Conn) (mqttTopic : string) (e : Error) :
  onUnsubscribe mqttTopic c = Some (Some e, c') ->
  (e = ErrBadRequest \/ e = ErrUnauthorized) /\ c' = c.
Proof.
  unfold onUnsubscribe. intros Hrun.
  destruct (is_invalid (ParseChannel mqttTopic)).
  { injection Hrun as <- <-. tauto. }
  destruct (authorize (ParseChannel mqttTopic) AllowRead) as [[contract key] |].
  - run_steps_in Hrun. discriminate.
  - injection Hrun as <- <-. tauto.
Qed.

(** Without the Load permission nothing is replayed. For a valid
    channel and a key that passes the Read authorization and has neither
    the Extend nor the Load permission, [onSubscribe] succeeds, inserts
    the subscription and records the contract; the store is not asked
    and no message is sent. *)
Lemma subscribe_without_load (c : Conn) (mqttTopic : string)
    (contract : ContractInfo) (key : Key) :
  let channel := ParseChannel mqttTopic in
  let entry := (NewSsid (Contract key) (Query channel), ChannelPath channel, ID c) in
  ChannelType channel <> ChannelInvalid ->
  authorize channel AllowRead = Some (contract, key) ->
  HasPermission key AllowExtend = false ->
  HasPermission key AllowLoad = false ->
  exists c',
    onSubscribe mqttTopic c = Some (None, c')
    /\ subscriptions c' = {[ entry ]} ∪ subscriptions c
    /\ links c' = links c
    /\ effects c' = (effects c ++ [EffTrack contract])%list.
Proof.
  intros channel entry Hvalid Hauth Hext Hload.
  unfold onSubscribe. fold channel.
  rewrite (is_invalid_false _ Hvalid), Hauth, Hext.
  run_steps. rewrite Hload.
  eexists. split; [reflexivity |]. by cbn.
Qed.

(** X3. The replay follows the store. For a valid channel and a key that
    passes the Read authorization, has no Extend bit and has the Load
    permission, when the store answers the query (for the window of the
    channel and the limit of the replay) with the messages [msgs],
    [onSubscribe] succeeds and sends exactly these messages, in the order
    of the store, before it records the contract. *)
Theorem subscribe_replays_in_order (c : Conn) (mqttTopic : string)
    (contract : ContractInfo) (key : Key) (msgs : list Message) :
  let channel := ParseChannel mqttTopic in
  let ssid := NewSsid (Contract key) (Query channel) in
  let entry := (ssid, ChannelPath channel, ID c) in
  ChannelType channel <> ChannelInvalid ->
  authorize channel AllowRead = Some (contract, key) ->
  HasPermission key AllowExtend = false ->
  HasPermission key AllowLoad = true ->
  storage_Query ssid (fst (Window channel)) (snd (Window channel))
                (replay_limit channel) = inr msgs ->
  exists c',
    onSubscribe mqttTopic c = Some (None, c')
    /\ subscriptions c' = {[ entry ]} ∪ subscriptions c
    /\ links c' = links c
    /\ effects c' = (effects c ++ map EffSend msgs ++ [EffTrack contract])%list.
Proof.
  intros channel ssid entry Hvalid Hauth Hext Hload Hquery.
  unfold onSubscribe. fold channel.
  rewrite (is_invalid_false _ Hvalid), Hauth, Hext. fold ssid.
  run_steps. rewrite Hload.
  destruct (Window channel) as [t0 t1]. cbn [fst snd] in Hquery.
  rewrite Hquery.
  match goal with
  | |- context [for_each Send msgs ?c1] =>
      destruct (for_each_Send msgs c1) as (c2 & Hsend & _ & _ & Hlinks & Hsubs & Heff);
      rewrite Hsend
  end.
  eexists. split; [reflexivity |].
  cbn. cbn in Hlinks, Hsubs, Heff.
  rewrite Hlinks, Hsubs, Heff, <- app_assoc. done.
Qed.

(** The limit of the replay is one message unless the channel has a
    [last] option, whose value it then is, whatever that value. *)
Lemma replay_limit_default (channel : Channel) :
  (snd (Last channel) = false -> replay_limit channel = 1)
  /\ (snd (Last channel) = true -> replay_limit channel = fst (Last channel)).
Proof.
  unfold replay_limit. destruct (Last channel) as [v []]; cbn; split; congruence.
Qed.

(** X4. Subscribe, then unsubscribe. After a successful [onSubscribe] of
    a topic by a key that passes the Read authorization, [onUnsubscribe]
    of the same topic succeeds and removes the entry that was inserted:
    when the connection was not subscribed before, the trie is as it was
    before the subscription, and the links are untouched. *)
Theorem subscribe_then_unsubscribe (c c1 : Conn) (mqttTopic : string)
    (contract : ContractInfo) (key : Key) :
  let channel := ParseChannel mqttTopic in
  let entry := (NewSsid (Contract key) (Query channel), ChannelPath channel, ID c) in
  authorize channel AllowRead = Some (contract, key) ->
  onSubscribe mqttTopic c = Some (None, c1) ->
  exists c2,
    onUnsubscribe mqttTopic c1 = Some (None, c2)
    /\ subscriptions c2 = subscriptions c ∖ {[ entry ]}
    /\ (entry ∉ subscriptions c -> subscriptions c2 = subscriptions c)
    /\ links c2 = links c.
Proof.
  intros channel entry Hauth Hrun.
  assert (Hc1 : subscriptions c1 = {[ entry ]} ∪ subscriptions c
                /\ links c1 = links c /\ ID c1 = ID c
                /\ is_invalid channel = false).
  { unfold onSubscribe in Hrun. fold channel in Hrun.
    destruct (is_invalid channel); [discriminate |].
    rewrite Hauth in Hrun.
    destruct (HasPermission key AllowExtend); [discriminate |].
    run_steps_in Hrun.
    destruct (HasPermission key AllowLoad).
    - destruct (Window channel) as [t0 t1].
      destruct (storage_Query _ t0 t1 _) as [err | msgs]; [discriminate |].
      match type of Hrun with
      | context [for_each Send msgs ?c0] =>
          destruct (for_each_Send msgs c0) as (c2 & Hsend & Hid & _ & Hlinks & Hsubs & _);
          rewrite Hsend in Hrun
      end.
      injection Hrun as <-. cbn in *. by rewrite Hlinks, Hsubs, Hid.
    - injection Hrun as <-. by cbn. }
  destruct Hc1 as (Hsubs & Hlinks & Hid & Hvalid).
  unfold onUnsubscribe. fold channel. rewrite Hvalid, Hauth.
  run_steps. eexists. split; [reflexivity |].
  cbn. rewrite Hsubs, Hlinks, Hid. fold entry.
  split; [| split; [| done]].
  - apply set_eq. intros x.
    rewrite !elem_of_difference, elem_of_union, elem_of_singleton. tauto.
  - intros Hnot. apply set_eq. intros x.
    rewrite elem_of_difference, elem_of_union, elem_of_singleton.
    split; [tauto |]. intros Hx. split; [tauto |]. by intros ->.
Qed.

(** What a run of [onKeyGen] can be. *)
Lemma onKeyGen_outcome (c c' : Conn) (now : Time) (payload : string)
    (resp : option response) (ok : bool) :
  onKeyGen now payload c = Some ((resp, ok), c') ->
  c' = c
  /\ (ok = false -> exists e, resp = Some (RespError e))
  /\ (ok = true ->
      exists r, resp = Some (RespKeyGen r)
                /\ kgr_Request r = 0 /\ kgr_Status r = 200).
Proof.
  unfold onKeyGen. intros Hrun.
  repeat (split_run Hrun; run_steps_in Hrun);
    try discriminate;
    injection Hrun as <- <- <-;
    (split; [reflexivity |]);
    (split; [intros ? | intros ?]); try discriminate; eauto.
Qed.


(** What a run of [onLink] can be. *)
Lemma onLink_outcome (c c' : Conn) (payload : string)
    (resp : option response) (ok : bool) :
  onLink payload c = Some ((resp, ok), c') ->
  ID c' = ID c /\ username c' = username c /\ effects c' = effects c
  /\ (ok = false -> c' = c /\ exists e, resp = Some (RespError e))
  /\ (ok = true ->
      exists r request channel entries,
        resp = Some (RespLink r)
        /\ json_Unmarshal_link payload linkRequest_zero = Some request
        /\ r = {| lkr_Request := 0; lkr_Status := 200;
                  lkr_Name := lk_Name request;
                  lkr_Channel := SafeString channel |}
        /\ Regexp.Match shortcut (lk_Name request) = true
        /\ ChannelType channel <> ChannelInvalid
        /\ links c = Some entries
        /\ links c' = Some (<[lk_Name request := ChannelString channel]> entries)
        /\ (subscriptions c' = subscriptions c
            \/ exists key contract,
                 lk_Subscribe request = true
                 /\ authorize channel AllowRead = Some (contract, key)
                 /\ subscriptions c' =
                      {[ (NewSsid (Contract key) (Query channel),
                          ChannelPath channel, ID c) ]} ∪ subscriptions c)).
Proof.
  unfold onLink. intros Hrun.
  destruct (json_Unmarshal_link payload linkRequest_zero) as [request |] eqn:Hbody.
  2: { injection Hrun as <- <- <-. repeat split; try discriminate; eauto. }
  destruct (Regexp.Match shortcut (lk_Name request)) eqn:Hname; cbn [negb] in Hrun.
  2: { injection Hrun as <- <- <-. repeat split; try discriminate; eauto. }
  run_steps_in Hrun.
  destruct (if lk_Private request then _ else _) as [err | [channel |]].
  1, 3: injection Hrun as <- <- <-; repeat split; try discriminate; eauto.
  destruct (is_invalid channel) eqn:Hvalid.
  { injection Hrun as <- <- <-. repeat split; try discriminate; eauto. }
  unfold links_assign in Hrun.
  destruct (links c) as [entries |] eqn:Hlinks; [| discriminate].
  assert (Hchannel : ChannelType channel <> ChannelInvalid).
  { unfold is_invalid in Hvalid. by apply bool_decide_eq_false in Hvalid. }
  destruct (authorize channel AllowRead) as [[contract key] |] eqn:Hauth;
    [destruct (lk_Subscribe request) eqn:Hsub |];
    injection Hrun as <- <- <-;
    cbn [ID username effects links subscriptions set_links set_subscriptions];
    do 3 (split; [reflexivity |]);
    (split; [discriminate |]); intros _;
    eexists _, request, channel, entries;
    do 7 (split; [done |]); eauto 10.
Qed.

(** What a run of [onPresence] can be. *)
Lemma onPresence_outcome (c c' : Conn) (now : Time) (payload : string)
    (resp : option response) (ok : bool) :
  onPresence now payload c = Some ((resp, ok), c') ->
  ID c' = ID c /\ username c' = username c /\ links c' = links c
  /\ effects c' = effects c
  /\ (ok = false ->
      c' = c
      /\ exists e, resp = Some (RespError e)
                   /\ (e = ErrBadRequest \/ e = ErrUnauthorized \/ e = ErrNotFound))
  /\ (ok = true ->
      exists msg key,
        json_Unmarshal_presence payload presenceRequest_default = Some msg
        /\ DecryptKey (pr_Key msg) = Some key
        /\ HasPermission key AllowPresence = true
        /\ IsExpired key = false
        /\ let channel := ParseChannel ("emitter/" ++ presence_channel msg) in
           let ssid := NewSsid (Contract key) (Query channel) in
           let entry := (NewSsidForPresence ssid, "", ID c) in
           ChannelType channel <> ChannelInvalid
           /\ subscriptions c' =
                match pr_Changes msg with
                | Some true => {[ entry ]} ∪ subscriptions c
                | Some false => subscriptions c ∖ {[ entry ]}
                | None => subscriptions c
                end
           /\ resp =
                if pr_Status msg
                then Some (RespPresence
                             {| prr_Request := 0; prr_Time := Unix now;
                                prr_Event := presenceStatusEvent;
                                prr_Channel := presence_channel msg;
                                prr_Who := getAllPresence (subscriptions c') ssid |})
                else None).
Proof.
  unfold onPresence. intros Hrun.
  destruct (json_Unmarshal_presence payload presenceRequest_default) as [msg |].
  2: { injection Hrun as <- <- <-. do 4 (split; [reflexivity |]).
       split; [eauto 10 | discriminate]. }
  destruct (DecryptKey (pr_Key msg)) as [key |] eqn:Hkey.
  2: { injection Hrun as <- <- <-. do 4 (split; [reflexivity |]).
       split; [eauto 10 | discriminate]. }
  destruct (HasPermission key AllowPresence) eqn:Hperm; cbn [negb orb] in Hrun.
  2: { injection Hrun as <- <- <-. do 4 (split; [reflexivity |]).
       split; [eauto 10 | discriminate]. }
  destruct (IsExpired key) eqn:Hexp.
  { injection Hrun as <- <- <-. do 4 (split; [reflexivity |]).
    split; [eauto 10 | discriminate]. }
  destruct (contracts_Get (Contract key)) as [contract |].
  2: { injection Hrun as <- <- <-. do 4 (split; [reflexivity |]).
       split; [eauto 10 | discriminate]. }
  destruct (negb (Validate contract key)).
  { injection Hrun as <- <- <-. do 4 (split; [reflexivity |]).
    split; [eauto 10 | discriminate]. }
  assert (Hchannel : (if negb (has_suffix_slash (pr_Channel msg))
                      then pr_Channel msg ++ "/" else pr_Channel msg)
                     = presence_channel msg).
  { unfold presence_channel. by destruct (has_suffix_slash _). }
  rewrite Hchannel in Hrun.
  destruct (is_invalid _) eqn:Hvalid.
  { injection Hrun as <- <- <-. do 4 (split; [reflexivity |]).
    split; [eauto 10 | discriminate]. }
  assert (Hkind : ChannelType (ParseChannel ("emitter/" ++ presence_channel msg))
                  <> ChannelInvalid).
  { unfold is_invalid in Hvalid. by apply bool_decide_eq_false in Hvalid. }
  run_steps_in Hrun.
  destruct (pr_Changes msg) as [[] |] eqn:Hchanges, (pr_Status msg) eqn:Hstatus;
    injection Hrun as <- <- <-; do 4 (split; [reflexivity |]);
    (split; [discriminate |]); intros _;
    exists msg, key; rewrite Hchanges, Hstatus;
    (split; [reflexivity |]); (split; [exact Hkey |]);
    (split; [exact Hperm |]); (split; [exact Hexp |]); cbv zeta;
    (split; [exact Hkind |]); split; reflexivity.
Qed.

(** X5. A refused publish leaves no trace. When [onPublish] returns an
    error, the error is one of [ErrBadRequest], [ErrForbidden],
    [ErrUnauthorized] and [ErrUnauthorizedExt], and the connection, its
    links, the trie and the record of outgoing calls are exactly as
    before: nothing was stored, published or counted. *)
Theorem refused_publish_is_clean (c c' : Conn) (now : Time) (packet : Publish)
    (e : Error) :
  onPublish now packet c = Some (Some e, c') ->
  publish_error e /\ c' = c.
Proof.
  unfold onPublish, publish_error. intros Hrun. run_steps_in Hrun.
  destruct (is_invalid _); [injection Hrun as <- <-; tauto |].
  destruct (negb (is_static _)); [injection Hrun as <- <-; tauto |].
  destruct ((len _ =? 7) && String.eqb _ "emitter").
  { destruct (onEmitterRequest _ _ _ _ _) as [[ok c1] |]; discriminate. }
  destruct (authorize _ AllowWrite) as [[contract key] |];
    [| injection Hrun as <- <-; tauto].
  destruct (HasPermission key AllowExtend); [injection Hrun as <- <-; tauto |].
  destruct (Stored _ && HasPermission key AllowStore); discriminate.
Qed.

(** X6. A publish on a channel of its own never touches the links or
    the trie. Whatever [onPublish] returns for a topic whose channel key
    is not ["emitter"], the identity, the user name, the links and the
    subscriptions of the connection are as before, and the calls made
    before are still on record, in order. *)
Theorem publish_keeps_links_and_trie (c c' : Conn) (now : Time) (packet : Publish)
    (result : option Error) :
  ChannelKey (ParseChannel (resolve_topic c (Topic packet))) <> "emitter" ->
  onPublish now packet c = Some (result, c') ->
  ID c' = ID c /\ username c' = username c /\ links c' = links c
  /\ subscriptions c' = subscriptions c
  /\ exists calls, effects c' = (effects c ++ calls)%list.
Proof.
  intros Hkey. unfold onPublish. run_steps.
  rewrite (not_emitter_key _ Hkey).
  assert (Hsame : forall r, Some (r, c) = Some (result, c') ->
            ID c' = ID c /\ username c' = username c /\ links c' = links c
            /\ subscriptions c' = subscriptions c
            /\ exists calls, effects c' = (effects c ++ calls)%list).
  { intros r [= _ <-]. do 4 (split; [reflexivity |]).
    exists []. by rewrite app_nil_r. }
  destruct (is_invalid _); [apply Hsame |].
  destruct (negb (is_static _)); [apply Hsame |].
  destruct (authorize _ AllowWrite) as [[contract key] |]; [| apply Hsame].
  destruct (HasPermission key AllowExtend); [apply Hsame |].
  destruct (Stored _ && HasPermission key AllowStore);
    intros [= _ <-]; cbn; do 4 (split; [reflexivity |]);
    rewrite <- ?app_assoc; eauto.
Qed.

(** X7. [onKeyGen] only reads. Whatever the request and whatever the
    key provider answers, a run of [onKeyGen] that returns leaves the
    connection, its links, the trie and the record of outgoing calls
    exactly as they were; it reports success exactly when its response
    is a key response of status 200, and an error response otherwise. *)
Theorem keygen_only_reads (c c' : Conn) (now : Time) (payload : string)
    (resp : option response) (ok : bool) :
  onKeyGen now payload c = Some ((resp, ok), c') ->
  c' = c
  /\ (ok = true <-> exists r, resp = Some (RespKeyGen r) /\ kgr_Status r = 200)
  /\ (ok = false <-> exists e, resp = Some (RespError e)).
Proof.
  intros Hrun.
  destruct (onKeyGen_outcome _ _ _ _ _ _ Hrun) as (Hc & Hfail & Hpass).
  split; [exact Hc |].
  destruct ok.
  - destruct (Hpass eq_refl) as (r & -> & _ & Hstatus).
    split.
    + split; [intros _; eauto | reflexivity].
    + split; [discriminate | intros (e & He); discriminate].
  - destruct (Hfail eq_refl) as (e & ->).
    split.
    + split; [discriminate | intros (r & Hr & _); discriminate].
    + split; [intros _; eauto | reflexivity].
Qed.

(** X8. Keys are extended for the connection that asks. For a keygen
    request whose parent key decrypts, is not expired, is not a master
    key and has the Extend permission, [onKeyGen] asks [ExtendKey] for
    the channel of the request, bound to the identity of the connection,
    with the requested access and expiry: the key and the channel of the
    extended channel are the response, with status 200, and an error of
    [ExtendKey] is the response when it fails. *)
Theorem keygen_by_extension (c : Conn) (now : Time) (payload : string)
    (message : keyGenRequest) (parentKey : Key) :
  json_Unmarshal_keyGen payload keyGenRequest_zero = Some message ->
  DecryptKey (kg_Key message) = Some parentKey ->
  IsExpired parentKey = false ->
  IsMaster parentKey = false ->
  HasPermission parentKey AllowExtend = true ->
  let extended :=
    ExtendKey (kg_Key message) (kg_Channel message) (ID c)
              (access message) (expires now message) in
  (forall channel,
      extended = inr (Some channel) ->
      onKeyGen now payload c =
      Some ((Some (RespKeyGen {| kgr_Request := 0; kgr_Status := 200;
                                 kgr_Key := ChannelKey channel;
                                 kgr_Channel := ChannelPath channel |}),
             true), c))
  /\ (forall err,
        extended = inl err ->
        onKeyGen now payload c = Some ((Some (RespError err), false), c)).
Proof.
  intros Hbody Hkey Hexp Hmaster Hext extended.
  unfold onKeyGen. rewrite Hbody, Hkey, Hexp, Hmaster, Hext.
  run_steps. fold extended.
  split; [intros channel -> | intros err ->]; reflexivity.
Qed.

(** A keygen request that cannot be served is answered with
    [ErrBadRequest] when its body does not parse and with
    [ErrUnauthorized] when the parent key does not decrypt or is expired,
    whatever its permissions, master keys included. *)
Lemma keygen_rejections (c : Conn) (now : Time) (payload : string) :
  (json_Unmarshal_keyGen payload keyGenRequest_zero = None ->
   onKeyGen now payload c = Some ((Some (RespError ErrBadRequest), false), c))
  /\ (forall message,
        json_Unmarshal_keyGen payload keyGenRequest_zero = Some message ->
        (DecryptKey (kg_Key message) = None
         \/ exists parentKey, DecryptKey (kg_Key message) = Some parentKey
                              /\ IsExpired parentKey = true) ->
        onKeyGen now payload c = Some ((Some (RespError ErrUnauthorized), false), c)).
Proof.
  unfold onKeyGen. split.
  - by intros ->.
  - intros message -> [-> | (parentKey & -> & ->)]; reflexivity.
Qed.

(** X9. A link request that fails changes nothing: when [onLink]
    reports failure, its response is an error and the connection, its
    links and the trie are exactly as before. *)
Theorem failed_link_is_clean (c c' : Conn) (payload : string)
    (resp : option response) :
  onLink payload c = Some ((resp, false), c') ->
  c' = c /\ exists e, resp = Some (RespError e).
Proof.
  intros Hrun.
  destruct (onLink_outcome _ _ _ _ _ Hrun) as (_ & _ & _ & Hfail & _).
  by apply Hfail.
Qed.


(** X11. The names of the links stay shortcuts: when every link of the
    connection is named by one or two ASCII letters or digits, the same
    holds after any run of [onLink]. *)
Theorem link_names_stay_shortcuts (c c' : Conn) (payload : string)
    (result : option response * bool) :
  links_are_shortcuts c ->
  onLink payload c = Some (result, c') ->
  links_are_shortcuts c'.
Proof.
  intros Hinv Hrun. destruct result as [resp ok].
  destruct (onLink_outcome _ _ _ _ _ Hrun) as (_ & _ & _ & Hfail & Hpass).
  destruct ok.
  - destruct (Hpass eq_refl)
      as (r & request & channel & entries & _ & _ & _ & Hname & _ & Hlinks & Hlinks' & _).
    intros entries' name K Hentries Hlookup.
    rewrite Hlinks' in Hentries. injection Hentries as <-.
    destruct (decide (name = lk_Name request)) as [-> | Hother].
    + by apply shortcut_Match_true.
    + rewrite lookup_insert_ne in Hlookup by done.
      exact (Hinv entries name K Hlinks Hlookup).
  - destruct (Hfail eq_refl) as [-> _]. exact Hinv.
Qed.

(** X12. A link answers to its name. After a successful [onLink] for
    the shortcut [n], the topic [n] of a publish resolves to the channel
    string that was stored, and [onPublish] of the topic [n] does what
    [onPublish] of any other topic that resolves to this string does. *)
Theorem link_answers_to_its_name (c c' : Conn) (now : Time) (payload : string)
    (r : linkResponse) :
  onLink payload c = Some ((Some (RespLink r), true), c') ->
  exists K entries',
    links c' = Some entries'
    /\ entries' !! lkr_Name r = Some K
    /\ resolve_topic c' (lkr_Name r) = K
    /\ forall p1 p2,
         Topic p1 = lkr_Name r ->
         resolve_topic c' (Topic p2) = K ->
         Payload p2 = Payload p1 -> MessageID p2 = MessageID p1 ->
         Retain p2 = Retain p1 ->
         onPublish now p1 c' = onPublish now p2 c'.
Proof.
  intros Hrun.
  destruct (onLink_outcome _ _ _ _ _ Hrun) as (_ & _ & _ & _ & Hpass).
  destruct (Hpass eq_refl)
    as (r' & request & channel & entries & [= <-] & _ & -> & Hname & _ & _ & Hlinks' & _).
  cbn [lkr_Name].
  assert (Hresolve : resolve_topic c' (lk_Name request) = ChannelString channel).
  { apply shortcut_Match_true in Hname as [[_ Hlen] _].
    unfold resolve_topic, len. rewrite Hlinks'.
    replace (Z.of_nat (String.length (lk_Name request)) <=? 2) with true
      by (symmetry; apply Z.leb_le; lia).
    cbn. by rewrite lookup_insert_eq. }
  eexists (ChannelString channel), _.
  split; [exact Hlinks' |]. split; [apply lookup_insert_eq |].
  split; [exact Hresolve |].
  intros p1 p2 Htopic Hp2 Hpayload Hid Hretain.
  unfold onPublish, resolve_ttl. run_steps.
  by rewrite Htopic, Hresolve, Hp2, Hpayload, Hid, Hretain.
Qed.

(** X13. A link asks for no permission. For a link request with a
    shortcut name that is not private, whose key and channel make a valid
    channel, on a connection whose link map is not nil: when the key does
    not pass the Read authorization, or no subscription was asked for,
    [onLink] still stores the link and answers with status 200, and the
    trie is as before. *)
Theorem link_without_subscription (c : Conn) (payload : string)
    (request : linkRequest) (channel : Channel) (entries : gmap string string) :
  json_Unmarshal_link payload linkRequest_zero = Some request ->
  shortcut_grammar (lk_Name request) ->
  lk_Private request = false ->
  MakeChannel (lk_Key request) (lk_Channel request) = Some channel ->
  ChannelType channel <> ChannelInvalid ->
  links c = Some entries ->
  authorize channel AllowRead = None \/ lk_Subscribe request = false ->
  onLink payload c =
  Some ((Some (RespLink {| lkr_Request := 0; lkr_Status := 200;
                           lkr_Name := lk_Name request;
                           lkr_Channel := SafeString channel |}), true),
        set_links (Some (<[lk_Name request := ChannelString channel]> entries)) c).
Proof.
  intros Hbody Hname Hprivate Hmade Hvalid Hlinks Hplain.
  unfold onLink. rewrite Hbody.
  rewrite (proj2 (shortcut_Match_true _) Hname). cbn [negb].
  run_steps. rewrite Hprivate, Hmade, (is_invalid_false _ Hvalid).
  unfold links_assign. rewrite Hlinks.
  destruct Hplain as [-> | Hsub]; [reflexivity |].
  rewrite Hsub. by destruct (authorize channel AllowRead) as [[] |].
Qed.

(** X14. On a connection whose link map is nil no link can be created:
    every run of [onLink] that returns reports failure (a request that
    passes all the checks ends in the assignment to the nil map, which
    does not return). *)
Theorem no_link_on_nil_map (c c' : Conn) (payload : string)
    (resp : option response) (ok : bool) :
  links c = None ->
  onLink payload c = Some ((resp, ok), c') ->
  ok = false.
Proof.
  intros Hnil Hrun.
  destruct (onLink_outcome _ _ _ _ _ Hrun) as (_ & _ & _ & _ & Hpass).
  destruct ok; [| reflexivity].
  destruct (Hpass eq_refl) as (_ & _ & _ & entries & _ & _ & _ & _ & _ & Hlinks & _).
  congruence.
Qed.



(** X16. An emitter request that names no known verb is answered with
    [ErrNotFound]: when the query of the channel is empty, or starts
    with a hash that is none of keygen, presence, me and link,
    [onEmitterRequest] reports failure and sends [ErrNotFound] on the
    channel of the request; the links and the trie are untouched. *)
Theorem unknown_request_is_not_found (c : Conn) (now : Time) (channel : Channel)
    (payload : string) (requestID : Z) :
  (Query channel = []
   \/ exists q0 rest,
        Query channel = q0 :: rest
        /\ q0 <> requestKeygen /\ q0 <> requestPresence
        /\ q0 <> requestMe /\ q0 <> requestLink) ->
  onEmitterRequest now channel payload requestID c =
  Some (false,
        add_effect (EffSendResponse (ChannelString channel) (RespError ErrNotFound)) c).
Proof.
  unfold onEmitterRequest.
  intros [-> | (q0 & rest & -> & Hk & Hp & Hm & Hl)].
  - reflexivity.
  - apply Z.eqb_neq in Hk, Hp, Hm, Hl. by rewrite Hk, Hp, Hm, Hl.
Qed.

(** X17. [onMe] reports the links by name and changes nothing. It
    always succeeds; its response carries the identity of the connection
    and one entry for each link of the connection, under the same name,
    and none for the nil map; the connection is as before. *)
Theorem me_reports_every_link (c : Conn) :
  exists r,
    onMe c = Some ((Some (RespMe r), true), c)
    /\ me_ID r = ID c
    /\ dom (me_Links r) = dom (default ∅ (links c))
    /\ (links c = None -> me_Links r = ∅).
Proof.
  unfold onMe. run_steps. eexists. split; [reflexivity |].
  cbn [me_ID me_Links]. split; [reflexivity |].
  split; [apply dom_fmap_L |].
  intros ->. cbn. apply fmap_empty.
Qed.

Lemma append_slash (s : string) : has_suffix_slash (s ++ "/") = true.
Proof.
  unfold has_suffix_slash.
  assert (Hlen : String.length (s ++ "/") = S (String.length s)).
  { induction s as [| a s IH]; [reflexivity |].
    simpl. by rewrite IH. }
  rewrite Hlen. apply String.eqb_eq. clear Hlen.
  induction s as [| a s IH]; [reflexivity |]. exact IH.
Qed.

(** The channel of a presence request ends with a slash, and is the
    channel of the request when that already does. *)
Lemma presence_channel_slash (msg : presenceRequest) :
  has_suffix_slash (presence_channel msg) = true
  /\ (has_suffix_slash (pr_Channel msg) = true -> presence_channel msg = pr_Channel msg).
Proof.
  unfold presence_channel.
  destruct (has_suffix_slash (pr_Channel msg)) eqn:Hslash.
  - by split.
  - split; [apply append_slash | discriminate].
Qed.


(** X19. The status response of a presence request. Every presence
    response that [onPresence] returns reports success, carries the event
    ["status"], the clock in whole seconds and the channel of the request
    with its trailing slash (added when the request had none), and lists
    the presence gathered for the contract of the key and the query of
    the channel ["emitter/" + channel], on the trie as the changes toggle
    of the request left it. *)
Theorem presence_status_response (c c' : Conn) (now : Time) (payload : string)
    (r : presenceResponse) (ok : bool) :
  onPresence now payload c = Some ((Some (RespPresence r), ok), c') ->
  ok = true
  /\ prr_Event r = presenceStatusEvent
  /\ prr_Time r = Unix now
  /\ has_suffix_slash (prr_Channel r) = true
  /\ exists msg key,
       json_Unmarshal_presence payload presenceRequest_default = Some msg
       /\ DecryptKey (pr_Key msg) = Some key
       /\ pr_Status msg = true
       /\ prr_Channel r = presence_channel msg
       /\ prr_Who r =
            getAllPresence (subscriptions c')
              (NewSsid (Contract key)
                       (Query (ParseChannel ("emitter/" ++ prr_Channel r)))).
Proof.
  intros Hrun.
  destruct (onPresence_outcome _ _ _ _ _ _ Hrun) as (_ & _ & _ & _ & Hfail & Hpass).
  destruct ok.
  2: { destruct (Hfail eq_refl) as (_ & e & He & _). discriminate. }
  split; [reflexivity |].
  destruct (Hpass eq_refl) as (msg & key & Hbody & Hkey & _ & _ & Hrest).
  cbv zeta in Hrest. destruct Hrest as (_ & _ & Hresp).
  destruct (pr_Status msg) eqn:Hstatus; [| discriminate].
  injection Hresp as ->. cbn [prr_Event prr_Time prr_Channel prr_Who].
  do 2 (split; [reflexivity |]).
  split; [apply presence_channel_slash |].
  exists msg, key. by repeat split.
Qed.

(** X20. Presence notifications reach those who asked for the changes.
    After a presence request with [changes] set to true that
    [onPresence] served, the trie holds a subscription of the connection
    to the SSID on which [newPresenceNotify] dispatches the
    notifications for the contract of the key and the query of the
    channel ["emitter/" + channel]; with [changes] set to false that
    subscription is not in the trie. *)
Theorem presence_changes_follow_notifications (c c' : Conn) (now : Time)
    (payload : string) (resp : option response) :
  onPresence now payload c = Some ((resp, true), c') ->
  exists msg key,
    json_Unmarshal_presence payload presenceRequest_default = Some msg
    /\ DecryptKey (pr_Key msg) = Some key
    /\ forall (at_ : Time) (event : presenceEvent) (path id user : string),
         let ssid := NewSsid (Contract key)
                       (Query (ParseChannel ("emitter/" ++ presence_channel msg))) in
         let notify := newPresenceNotify at_ ssid event path id user in
         (pr_Changes msg = Some true ->
          (pn_Ssid notify, "", ID c) ∈ subscriptions c')
         /\ (pr_Changes msg = Some false ->
             (pn_Ssid notify, "", ID c) ∉ subscriptions c')
         /\ (pr_Changes msg = None -> subscriptions c' = subscriptions c).
Proof.
  intros Hrun.
  destruct (onPresence_outcome _ _ _ _ _ _ Hrun) as (_ & _ & _ & _ & _ & Hpass).
  destruct (Hpass eq_refl) as (msg & key & Hbody & Hkey & _ & _ & Hrest).
  cbv zeta in Hrest. destruct Hrest as (_ & Hsubs & _).
  exists msg, key. do 2 (split; [assumption |]).
  intros at_ event path id user ssid notify. cbn [newPresenceNotify pn_Ssid notify].
  subst notify. cbn [newPresenceNotify pn_Ssid]. fold ssid in Hsubs.
  split; [| split]; intros Hchanges; rewrite Hchanges in Hsubs; rewrite Hsubs.
  - apply elem_of_union. left. by apply elem_of_singleton.
  - apply not_elem_of_difference. right. by apply elem_of_singleton.
  - reflexivity.
Qed.

(** A presence key is checked against its contract: for a presence
    request whose key decrypts, has the Presence permission and is not
    expired, [onPresence] answers [ErrUnauthorized] when the contract of
    the key does not validate the key, and leaves the connection as it
    was. *)
Lemma presence_needs_a_valid_contract (c : Conn) (now : Time) (payload : string)
    (msg : presenceRequest) (key : Key) (contract : ContractInfo) :
  json_Unmarshal_presence payload presenceRequest_default = Some msg ->
  DecryptKey (pr_Key msg) = Some key ->
  HasPermission key AllowPresence = true ->
  IsExpired key = false ->
  contracts_Get (Contract key) = Some contract ->
  Validate contract key = false ->
  onPresence now payload c = Some ((Some (RespError ErrUnauthorized), false), c).
Proof.
  intros Hbody Hkey Hperm Hexp Hcontract Hvalidate.
  unfold onPresence. by rewrite Hbody, Hkey, Hperm, Hexp, Hcontract, Hvalidate.
Qed.

(** The loop of [lookupPresence], started from any list. *)
Lemma lookupPresence_loop (subscribers : list Subscriber) (resp : list presenceInfo) :
  fold_left
    (fun resp subscriber =>
       match subscriber with
       | LocalConn id user => (resp ++ [{| pi_ID := id; pi_Username := user |}])%list
       | RemotePeer _ => resp
       end)
    subscribers resp
  = (resp ++ omap presence_of subscribers)%list.
Proof.
  revert resp. induction subscribers as [| s rest IH]; intros resp; cbn [fold_left].
  - cbn. by rewrite app_nil_r.
  - rewrite IH. destruct s as [id user | name]; cbn.
    + by rewrite <- app_assoc.
    + reflexivity.
Qed.

(** The loop of [getClusterPresence], started from any list. *)
Lemma gather_loop (responses : list string) (who : list presenceInfo) :
  fold_left
    (fun who resp =>
       match binary_Unmarshal_presence resp with
       | Some info => (who ++ info)%list
       | None => who
       end)
    responses who
  = (who ++ concat (omap binary_Unmarshal_presence responses))%list.
Proof.
  revert who. induction responses as [| resp rest IH]; intros who; cbn [fold_left].
  - cbn. by rewrite app_nil_r.
  - rewrite IH. cbn. destruct (binary_Unmarshal_presence resp) as [info |]; cbn.
    + by rewrite <- app_assoc.
    + reflexivity.
Qed.

(** X21. The local presence is the list of the local connections that
    the trie finds for the SSID, in the order of the lookup: one entry,
    with identity and user name, for each connection, and none for any
    other subscriber. *)
Theorem local_presence_lists_connections (trie : gset Subscription) (ssid : Ssid) :
  lookupPresence trie ssid = omap presence_of (subscriptions_Lookup trie ssid)
  /\ getLocalPresence trie ssid = lookupPresence trie ssid
  /\ (length (lookupPresence trie ssid)
      <= length (subscriptions_Lookup trie ssid))%nat
  /\ forall id user,
       In {| pi_ID := id; pi_Username := user |} (lookupPresence trie ssid)
       <-> In (LocalConn id user) (subscriptions_Lookup trie ssid).
Proof.
  assert (Hspec : lookupPresence trie ssid
                  = omap presence_of (subscriptions_Lookup trie ssid)).
  { unfold lookupPresence. by rewrite lookupPresence_loop. }
  split; [exact Hspec |]. split; [reflexivity |].
  rewrite Hspec. split.
  - generalize (subscriptions_Lookup trie ssid). intros l.
    induction l as [| [id user | name] l IH]; cbn; lia.
  - intros id user. rewrite <- !list_elem_of_In, list_elem_of_omap.
    split.
    + intros ([id' user' | name] & Hin & Hp); [| discriminate].
      by injection Hp as -> ->.
    + intros Hin. by exists (LocalConn id user).
Qed.

(** X22. The presence of the cluster is what the peers answered in
    time. [getClusterPresence] waits 1000 milliseconds for the answers to
    one survey of type ["presence"] that carries the marshalled SSID, and
    returns the lists it could decode, joined in the order of the
    answers; an answer that does not decode is skipped, and when the
    SSID cannot be marshalled or the survey cannot be sent the result is
    empty. *)
Theorem cluster_presence_gathers_answers (ssid : Ssid) :
  (binary_Marshal_ssid ssid = None -> getClusterPresence ssid = [])
  /\ (forall req err,
        binary_Marshal_ssid ssid = Some req ->
        Survey "presence" req = inl err ->
        getClusterPresence ssid = [])
  /\ (forall req (awaiter : Awaiter),
        binary_Marshal_ssid ssid = Some req ->
        Survey "presence" req = inr awaiter ->
        getClusterPresence ssid
        = concat (omap binary_Unmarshal_presence (awaiter 1000000000))).
Proof.
  unfold getClusterPresence. split; [| split].
  - by intros ->.
  - by intros req err -> ->.
  - intros req awaiter -> ->. apply gather_loop.
Qed.

(** X23. The presence of a channel lists the local connections first,
    then the answers of the cluster; when the cluster cannot be asked it
    is the local presence alone. *)
Theorem all_presence_is_local_then_cluster (trie : gset Subscription) (ssid : Ssid) :
  getAllPresence trie ssid
  = (omap presence_of (subscriptions_Lookup trie ssid) ++ getClusterPresence ssid)%list
  /\ (binary_Marshal_ssid ssid = None
      \/ (exists req err, binary_Marshal_ssid ssid = Some req
                          /\ Survey "presence" req = inl err) ->
      getAllPresence trie ssid = omap presence_of (subscriptions_Lookup trie ssid)).
Proof.
  assert (Hall : getAllPresence trie ssid
                 = (omap presence_of (subscriptions_Lookup trie ssid)
                    ++ getClusterPresence ssid)%list).
  { unfold getAllPresence, getLocalPresence, lookupPresence.
    by rewrite lookupPresence_loop. }
  split; [exact Hall |].
  intros Hdown. rewrite Hall.
  replace (getClusterPresence ssid) with (@nil presenceInfo); [apply app_nil_r |].
  unfold getClusterPresence.
  destruct Hdown as [-> | (req & err & -> & ->)]; reflexivity.
Qed.

(** X24. [OnSurvey] answers presence queries only, and only reads. A
    query of any other type, or with a payload that is not an SSID, gets
    no answer and leaves no trace; a presence query is logged and
    answered with the marshalled local presence of its SSID; in every
    case the links and the trie are as before. *)
Theorem survey_answers_presence_only (c c' : Conn) (queryType payload : string)
    (reply : option string) (ok : bool) :
  OnSurvey queryType payload c = Some ((reply, ok), c') ->
  ID c' = ID c /\ links c' = links c /\ subscriptions c' = subscriptions c
  /\ (queryType <> "presence" \/ binary_Unmarshal_ssid payload = None ->
      reply = None /\ ok = false /\ c' = c)
  /\ (ok = true ->
      queryType = "presence"
      /\ exists target,
           binary_Unmarshal_ssid payload = Some target
           /\ binary_Marshal_presence (lookupPresence (subscriptions c) target) = reply
           /\ effects c' =
                (effects c ++ [EffLogTarget "query" "presence query received" target])%list)
  /\ (ok = false -> reply = None).
Proof.
  unfold OnSurvey. intros Hrun.
  destruct (String.eqb queryType "presence") eqn:Htype; cbn [negb] in Hrun.
  2: { injection Hrun as <- <- <-. apply String.eqb_neq in Htype.
       do 3 (split; [reflexivity |]). split; [done |]. split; [discriminate | done]. }
  apply String.eqb_eq in Htype. subst queryType.
  destruct (binary_Unmarshal_ssid payload) as [target |].
  2: { injection Hrun as <- <- <-.
       do 3 (split; [reflexivity |]). split; [done |]. split; [discriminate | done]. }
  run_steps_in Hrun. cbn [subscriptions add_effect] in Hrun.
  destruct (binary_Marshal_presence (lookupPresence (subscriptions c) target))
    as [presence |] eqn:Hmarshal;
    injection Hrun as <- <- <-; cbn [ID links subscriptions effects add_effect];
    do 3 (split; [reflexivity |]).
  - split; [intros [Hne | Hnone]; [done | discriminate] |].
    split; [| discriminate]. intros _. split; [reflexivity |].
    exists target. by repeat split.
  - split; [intros [Hne | Hnone]; [done | discriminate] |].
    split; [discriminate | done].
Qed.

End Coverage.

Section AccessCoverage.
Context {perms : Permissions}.

Lemma fold_lor_testbit (flags : list Z) (a n : Z) :
  Z.testbit (fold_right Z.lor a flags) n
  = Z.testbit a n || existsb (fun f => Z.testbit f n) flags.
Proof.
  induction flags as [| f flags IH]; cbn [fold_right existsb].
  - by rewrite orb_false_r.
  - rewrite Z.lor_spec, IH.
    destruct (Z.testbit f n), (Z.testbit a n); reflexivity.
Qed.

(** The permissions the characters of a [type] field stand for. *)
Lemma access_flags (m : keyGenRequest) :
  access m = fold_right Z.lor AllowNone
               (omap permission_of (list_ascii_of_string (kg_Type m))).
Proof. apply access_loop_spec. Qed.

(** The bits of the access of a request. *)
Lemma access_bits (m : keyGenRequest) (n : Z) :
  Z.testbit (access m) n = true <->
  Z.testbit AllowNone n = true
  \/ exists c flag,
       In c (list_ascii_of_string (kg_Type m))
       /\ permission_of c = Some flag
       /\ Z.testbit flag n = true.
Proof.
  rewrite access_flags, fold_lor_testbit, orb_true_iff, existsb_exists.
  split; intros [Hnone | Hflag]; [by left | right | by left | right].
  - destruct Hflag as (flag & Hin & Hbit).
    apply list_elem_of_In, list_elem_of_omap in Hin as (c & Hc & Hflag).
    exists c, flag. by rewrite <- list_elem_of_In.
  - destruct Hflag as (c & flag & Hc & Hflag & Hbit).
    exists flag. split; [| exact Hbit].
    apply list_elem_of_In, list_elem_of_omap. exists c.
    by rewrite list_elem_of_In.
Qed.

(** X25. [access] grants what was asked for, and nothing else: a bit is
    set in the result exactly when it is set in [AllowNone] or in the
    permission that some character of [type] stands for. In particular
    every permission whose character occurs in [type] is contained in
    the result. *)
Theorem access_grants_exactly (m : keyGenRequest) :
  (forall n,
      Z.testbit (access m) n = true <->
      Z.testbit AllowNone n = true
      \/ exists c flag,
           In c (list_ascii_of_string (kg_Type m))
           /\ permission_of c = Some flag
           /\ Z.testbit flag n = true)
  /\ (forall c flag,
        In c (list_ascii_of_string (kg_Type m)) ->
        permission_of c = Some flag ->
        Z.land (access m) flag = flag).
Proof.
  split; [apply access_bits |].
  intros c flag Hc Hflag. apply Z.bits_inj'. intros n _.
  rewrite Z.land_spec.
  destruct (Z.testbit flag n) eqn:Hbit; [| apply andb_false_r].
  rewrite andb_true_r. apply access_bits. right. eauto.
Qed.

(** X26. The order and the repetition of the characters of [type] do not
    matter: two requests whose [type] fields have the same characters
    ask for the same access. *)
Theorem access_same_characters (m1 m2 : keyGenRequest) :
  (forall c, In c (list_ascii_of_string (kg_Type m1))
             <-> In c (list_ascii_of_string (kg_Type m2))) ->
  access m1 = access m2.
Proof.
  intros Hsame. apply Z.bits_inj'. intros n _.
  apply eq_true_iff_eq. rewrite !access_bits.
  split; (intros [Hnone | (c & flag & Hc & Hrest)]; [by left | right]);
    exists c, flag; (split; [by apply Hsame | exact Hrest]).
Qed.

(** X27. The access of a [type] field that is made of two parts is the
    OR of the access of the parts. *)
Theorem access_of_parts (m m1 m2 : keyGenRequest) :
  kg_Type m = kg_Type m1 ++ kg_Type m2 ->
  access m = Z.lor (access m1) (access m2).
Proof.
  intros Htype. apply Z.bits_inj'. intros n _.
  rewrite Z.lor_spec, !access_flags, !fold_lor_testbit, Htype.
  assert (Hchars : forall s1 s2 : string,
            list_ascii_of_string (s1 ++ s2)
            = (list_ascii_of_string s1 ++ list_ascii_of_string s2)%list).
  { intros s1 s2. induction s1 as [| a s1 IH]; [reflexivity |].
    change (a :: list_ascii_of_string (s1 ++ s2)
            = a :: (list_ascii_of_string s1 ++ list_ascii_of_string s2)%list).
    by rewrite IH. }
  rewrite Hchars, omap_app, existsb_app.
  destruct (Z.testbit AllowNone n), (existsb _ _), (existsb _ _); reflexivity.
Qed.

(** X28. [access] stays within 8 bits: when the permission flags are
    8-bit values, so is the access of every request, whatever its
    [type] field. *)
Theorem access_fits_uint8 (m : keyGenRequest) :
  flags_are_uint8 -> is_uint8 (access m).
Proof. apply access_is_uint8. Qed.

(** X29. The expiry of a key follows the TTL of the request. For a TTL
    that is a 32-bit number: a TTL of zero gives the epoch, whatever the
    clock; any other TTL gives the clock moved by that many seconds, with
    no overflow, so that a positive TTL expires after now and a negative
    TTL gives a key that has already expired. *)
Theorem expiry_follows_ttl (now : Time) (m : keyGenRequest) :
  is_int32 (kg_TTL m) ->
  (kg_TTL m = 0 -> expires now m = 0)
  /\ (kg_TTL m <> 0 ->
      expires now m = now + kg_TTL m * 1000000000
      /\ Unix (expires now m) = Unix now + kg_TTL m)
  /\ (0 < kg_TTL m -> now < expires now m)
  /\ (kg_TTL m < 0 -> expires now m < now).
Proof.
  intros Httl.
  assert (Hexp : kg_TTL m <> 0 -> expires now m = now + kg_TTL m * 1000000000).
  { intros Hne. unfold expires, time_Add.
    replace (kg_TTL m =? 0) with false by (symmetry; by apply Z.eqb_neq).
    by rewrite (seconds_fit _ Httl). }
  split; [| split; [| split]].
  - intros Hzero. unfold expires. by rewrite Hzero.
  - intros Hne. split; [by apply Hexp |].
    rewrite (Hexp Hne). unfold Unix, Second. apply Z.div_add. lia.
  - intros Hpos. rewrite Hexp by lia. lia.
  - intros Hneg. rewrite Hexp by lia. lia.
Qed.

End AccessCoverage.

(** X30. The compiled expression [shortcut] accepts exactly the names
    of the grammar: one or two characters, each an ASCII letter or digit;
    in particular every name it accepts has at most two bytes, the
    length under which [onPublish] looks a topic up in the links. *)
Theorem shortcut_accepts_the_grammar (name : string) :
  (Regexp.Match shortcut name = true <-> shortcut_grammar name)
  /\ (Regexp.Match shortcut name = true -> 1 <= len name <= 2).
Proof.
  split; [apply shortcut_Match_true |].
  intros Hname. apply shortcut_Match_true in Hname as [Hlen _].
  unfold len. lia.
Qed.

(* ------------------------------------------------------------------ *)
(** ** The handlers on the sample deployment *)

Import Sample.

Lemma extend_key_is_refused_sample :
  onSubscribe "extend/a/b/" Sample.conn = Some (Some ErrUnauthorizedExt, Sample.conn)
  /\ onPublish 0 (Sample.publish "extend/a/b/" false) Sample.conn
     = Some (Some ErrUnauthorizedExt, Sample.conn).
Proof.
  destruct (extend_key_is_refused Sample.conn 0) as [Hsubscribe Hpublish].
  split.
  - eapply Hsubscribe; [vm_compute; discriminate | vm_compute; reflexivity | reflexivity].
  - eapply Hpublish; [reflexivity | vm_compute; discriminate | vm_compute; reflexivity
                      | reflexivity].
Defined.

Lemma publish_to_wildcard_is_forbidden_sample :
  onPublish 0 (Sample.publish "writer/a/+/" false) Sample.subscribed
  = Some (Some ErrForbidden, Sample.subscribed).
Proof.
  apply (publish_to_wildcard_is_forbidden Sample.subscribed 0
           (Sample.publish "writer/a/+/" false));
    vm_compute; discriminate.
Defined.

Lemma unsubscribe_ignores_extend_sample :
  exists c',
    onUnsubscribe "extend/a/b/" Sample.subscribed = Some (None, c')
    /\ (([1; 10; 11], "a/b/", "c1") ∉ subscriptions c')
    /\ effects c' = [EffTrack {| ContractID := 1 |}].
Proof.
  destruct (unsubscribe_ignores_extend Sample.subscribed "extend/a/b/"
              {| ContractID := 1 |}
              {| Contract := 1; KeyPermissions := 2 + 4 + 64;
                 IsMaster := false; IsExpired := false |} true)
    as (c' & Hrun & _ & Hnot & _ & Heff).
  - vm_compute. discriminate.
  - vm_compute. reflexivity.
  - reflexivity.
  - exists c'. split; [exact Hrun | split; [exact Hnot | exact Heff]].
Defined.

Lemma failed_replay_keeps_subscription_sample :
  exists c',
    onSubscribe "broken/a/b/" Sample.conn = Some (Some ErrServerError, c')
    /\ (([7; 10; 11], "a/b/", "c1") ∈ subscriptions c')
    /\ effects c' = [EffLogError "conn" "query last messages" "store unavailable"].
Proof.
  destruct (failed_replay_keeps_subscription Sample.conn "broken/a/b/"
              {| ContractID := 7 |}
              {| Contract := 7; KeyPermissions := 2 + 16;
                 IsMaster := false; IsExpired := false |} "store unavailable")
    as (c' & Hrun & _ & Hin & _ & Heff).
  - vm_compute. discriminate.
  - vm_compute. reflexivity.
  - reflexivity.
  - reflexivity.
  - reflexivity.
  - exists c'. split; [exact Hrun | split; [exact Hin | exact Heff]].
Defined.

Lemma invalid_shortcut_is_rejected_sample :
  onLink "link abc" Sample.conn
  = Some ((Some (RespError ErrLinkInvalid), false), Sample.conn).
Proof.
  apply (invalid_shortcut_is_rejected Sample.conn "link abc"
           {| lk_Name := "abc"; lk_Key := "writer"; lk_Channel := "a/b/";
              lk_Subscribe := true; lk_Private := false |}).
  - reflexivity.
  - unfold shortcut_grammar. cbn. lia.
Defined.


Lemma short_topic_is_read_through_links_sample :
  resolve_topic Sample.linked "a1" = "writer/a/b/"
  /\ resolve_topic Sample.linked "reader/a/b/" = "reader/a/b/".
Proof.
  destruct (short_topic_is_read_through_links Sample.linked "a1") as (Hshort & _).
  destruct (short_topic_is_read_through_links Sample.linked "reader/a/b/")
    as (_ & _ & Hlong & _).
  split.
  - destruct (Hshort ltac:(vm_compute; discriminate) {[ "a1" := "writer/a/b/" ]}
                ltac:(reflexivity)) as [Hfound _].
    apply Hfound. apply lookup_singleton_eq.
  - apply Hlong. reflexivity.
Defined.

(** A topic of two bytes under which the connection has no link: the
    link map is not nil, and the topic that is parsed is the empty
    string, not the topic of the packet. *)
Lemma unknown_shortcut_becomes_empty :
  len "ab" <= 2
  /\ links Sample.conn = Some ∅
  /\ (∅ : gmap string string) !! "ab" = None
  /\ resolve_topic Sample.conn "ab" = ""
  /\ resolve_topic Sample.conn "ab" <> "ab".
Proof.
  split; [vm_compute; discriminate |].
  split; [reflexivity |].
  split; [apply lookup_empty |].
  split; [reflexivity | vm_compute; discriminate].
Qed.

Lemma publish_ttl_resolution_sample :
  exists c',
    onPublish 0 (Sample.publish "writer/a/b/?ttl=30" true) Sample.conn = Some (None, c')
    /\ exists msg,
         MsgTTL msg = 30
         /\ effects c' = [EffStore msg; EffPublish msg "";
                          EffTrack {| ContractID := 1 |};
                          EffAddIngress {| ContractID := 1 |} 1;
                          EffAddEgress {| ContractID := 1 |} 0].
Proof.
  destruct (publish_ttl_resolution Sample.conn 0 (Sample.publish "writer/a/b/?ttl=30" true)
              {| ContractID := 1 |}
              {| Contract := 1; KeyPermissions := 2 + 4 + 8 + 16 + 32;
                 IsMaster := false; IsExpired := false |})
    as (ttl & c' & Hrun & Hoption & _ & Heffects & _).
  - reflexivity.
  - vm_compute. discriminate.
  - vm_compute. reflexivity.
  - reflexivity.
  - exists c'. split; [exact Hrun |].
    assert (Httl : ttl = 30) by (apply Hoption; reflexivity).
    subst ttl. eexists. split; [| exact Heffects]. reflexivity.
Defined.

(** A retained publish with the option [ttl=0]: the message is stored
    and published with [RetainedTTL], not with the TTL of the option. *)
Lemma retained_publish_with_zero_ttl_option :
  let packet := Sample.publish "writer/a/b/?ttl=0" true in
  let msg := {| MsgSsid := [1; 10; 11]; MsgChannel := "a/b/";
                MsgPayload := "x"; MsgTTL := 4294967295 |} in
  Retain packet = true
  /\ TTL (ParseChannel (resolve_topic Sample.conn (Topic packet))) = (0, true)
  /\ RetainedTTL = 4294967295
  /\ MsgTTL msg <> to_uint32 0
  /\ exists c',
       onPublish 0 packet Sample.conn = Some (None, c')
       /\ effects c' = [EffStore msg; EffPublish msg "";
                        EffTrack {| ContractID := 1 |};
                        EffAddIngress {| ContractID := 1 |} 1;
                        EffAddEgress {| ContractID := 1 |} 0].
Proof.
  cbv zeta.
  split; [reflexivity |].
  split; [reflexivity |].
  split; [reflexivity |].
  split; [vm_compute; discriminate |].
  eexists. split; [vm_compute; reflexivity | reflexivity].
Qed.

Lemma keygen_from_master_sample :
  onKeyGen 0 "keygen rw" Sample.conn
  = Some ((Some (RespKeyGen {| kgr_Request := 0; kgr_Status := 200;
                               kgr_Key := "minted:a/b/"; kgr_Channel := "a/b/" |}),
           true), Sample.conn)
  /\ onKeyGen 0 "keygen reader" Sample.conn
     = Some ((Some (RespError ErrUnauthorized), false), Sample.conn).
Proof.
  split.
  - destruct (keygen_from_master Sample.conn 0 "keygen rw"
                {| kg_Key := "master"; kg_Channel := "a/b/"; kg_Type := "rw"; kg_TTL := 0 |}
                {| Contract := 1; KeyPermissions := 1; IsMaster := true; IsExpired := false |})
      as [Hmaster _].
    + reflexivity.
    + reflexivity.
    + unfold is_int32. cbn. lia.
    + destruct Hmaster as [Hminted _]; [reflexivity | reflexivity |].
      apply Hminted. reflexivity.
  - destruct (keygen_from_master Sample.conn 0 "keygen reader"
                {| kg_Key := "reader"; kg_Channel := "a/b/"; kg_Type := "rw"; kg_TTL := 60 |}
                {| Contract := 1; KeyPermissions := 2 + 16; IsMaster := false; IsExpired := false |})
      as [_ Hother].
    + reflexivity.
    + reflexivity.
    + unfold is_int32. cbn. lia.
    + apply Hother; reflexivity.
Defined.

(** A keygen request with a master key that is not expired and a target
    the key generator refuses: the response is the error of [CreateKey],
    not a response of status 200. *)
Lemma keygen_from_master_can_fail :
  json_Unmarshal_keyGen "keygen no target" keyGenRequest_zero
  = Some {| kg_Key := "master"; kg_Channel := ""; kg_Type := "rw"; kg_TTL := 0 |}
  /\ DecryptKey "master"
     = Some {| Contract := 1; KeyPermissions := 1; IsMaster := true; IsExpired := false |}
  /\ onKeyGen 0 "keygen no target" Sample.conn
     = Some ((Some (RespError ErrTargetInvalid), false), Sample.conn)
  /\ forall r ok c',
       onKeyGen 0 "keygen no target" Sample.conn <> Some ((Some (RespKeyGen r), ok), c').
Proof.
  split; [reflexivity |].
  split; [reflexivity |].
  assert (Hrun : onKeyGen 0 "keygen no target" Sample.conn
                 = Some ((Some (RespError ErrTargetInvalid), false), Sample.conn))
    by reflexivity.
  split; [exact Hrun |].
  intros r ok c'. rewrite Hrun. discriminate.
Qed.

Lemma presence_outcomes_sample :
  onPresence 5000000000 "presence a/b" Sample.subscribed
  = Some ((Some (RespPresence {| prr_Request := 0; prr_Time := 5;
                                 prr_Event := presenceStatusEvent;
                                 prr_Channel := "a/b/";
                                 prr_Who := [{| pi_ID := "c1"; pi_Username := "" |}] |}),
           true), Sample.subscribed)
  /\ onPresence 5000000000 "presence stale" Sample.subscribed
     = Some ((Some (RespError ErrUnauthorized), false), Sample.subscribed)
  /\ onPresence 5000000000 "presence orphan" Sample.subscribed
     = Some ((Some (RespError ErrNotFound), false), Sample.subscribed).
Proof.
  split; [| split].
  - destruct (presence_outcomes Sample.subscribed 5000000000 "presence a/b"
                {| pr_Key := "writer"; pr_Channel := "a/b"; pr_Status := true;
                   pr_Changes := None |})
      as [_ Hpass]; [reflexivity |].
    destruct (Hpass {| Contract := 1; KeyPermissions := 2 + 4 + 8 + 16 + 32;
                       IsMaster := false; IsExpired := false |})
      as [_ Hfound]; [reflexivity .. |].
    destruct (Hfound {| ContractID := 1 |}) as [Hstatus _];
      [reflexivity | reflexivity | vm_compute; discriminate |].
    rewrite Hstatus by reflexivity.
    vm_compute. reflexivity.
  - destruct (presence_outcomes Sample.subscribed 5000000000 "presence stale"
                {| pr_Key := "stale"; pr_Channel := "a/b/"; pr_Status := true;
                   pr_Changes := None |})
      as [Hfail _]; [reflexivity |].
    apply Hfail. right.
    exists {| Contract := 1; KeyPermissions := 32; IsMaster := false; IsExpired := true |}.
    split; [reflexivity | right; reflexivity].
  - destruct (presence_outcomes Sample.subscribed 5000000000 "presence orphan"
                {| pr_Key := "orphan"; pr_Channel := "a/b/"; pr_Status := true;
                   pr_Changes := None |})
      as [_ Hpass]; [reflexivity |].
    destruct (Hpass {| Contract := 9; KeyPermissions := 32;
                       IsMaster := false; IsExpired := false |})
      as [Habsent _]; [reflexivity .. |].
    apply Habsent. reflexivity.
Defined.

(** A presence request whose key passes every check of the authorization
    and whose status field is true, for a channel that does not parse:
    the response is [ErrBadRequest], not a status response. *)
Lemma presence_with_invalid_channel :
  let key := {| Contract := 1; KeyPermissions := 2 + 4 + 8 + 16 + 32;
                IsMaster := false; IsExpired := false |} in
  json_Unmarshal_presence "presence bad" presenceRequest_default
  = Some {| pr_Key := "writer"; pr_Channel := "a b"; pr_Status := true;
            pr_Changes := None |}
  /\ DecryptKey "writer" = Some key
  /\ HasPermission key AllowPresence = true
  /\ IsExpired key = false
  /\ contracts_Get (Contract key) = Some {| ContractID := 1 |}
  /\ Validate {| ContractID := 1 |} key = true
  /\ onPresence 5000000000 "presence bad" Sample.conn
     = Some ((Some (RespError ErrBadRequest), false), Sample.conn)
  /\ forall r ok c',
       onPresence 5000000000 "presence bad" Sample.conn
       <> Some ((Some (RespPresence r), ok), c').
Proof.
  cbv zeta.
  assert (Hrun : onPresence 5000000000 "presence bad" Sample.conn
                 = Some ((Some (RespError ErrBadRequest), false), Sample.conn))
    by reflexivity.
  do 6 (split; [reflexivity |]).
  split; [exact Hrun |].
  intros r ok c'. rewrite Hrun. discriminate.
Qed.

(* ------------------------------------------------------------------ *)
(** ** Runs of the definitions *)

Example shortcut_accepts :
  Regexp.Match shortcut "a" = true
  /\ Regexp.Match shortcut "a1" = true
  /\ Regexp.Match shortcut "Z9" = true.
Proof. repeat split. Qed.

Example shortcut_rejects :
  Regexp.Match shortcut "" = false
  /\ Regexp.Match shortcut "abc" = false
  /\ Regexp.Match shortcut "a-" = false
  /\ Regexp.Match shortcut "a/" = false.
Proof. repeat split. Qed.

Example access_of_flags :
  access {| kg_Key := ""; kg_Channel := ""; kg_Type := "rw"; kg_TTL := 0 |} = 6
  /\ access {| kg_Key := ""; kg_Channel := ""; kg_Type := "wr?r"; kg_TTL := 0 |} = 6
  /\ access {| kg_Key := ""; kg_Channel := ""; kg_Type := "rwslpex"; kg_TTL := 0 |} = 254
  /\ access {| kg_Key := ""; kg_Channel := ""; kg_Type := ""; kg_TTL := 0 |} = 0.
Proof. repeat split. Qed.

Example expires_of_ttl :
  expires 5000000000 {| kg_Key := ""; kg_Channel := ""; kg_Type := ""; kg_TTL := 0 |} = 0
  /\ expires 5000000000 {| kg_Key := ""; kg_Channel := ""; kg_Type := ""; kg_TTL := 60 |}
     = 65000000000
  /\ expires 5000000000 {| kg_Key := ""; kg_Channel := ""; kg_Type := ""; kg_TTL := -1 |}
     = 4000000000.
Proof. repeat split. Qed.

Example link_then_publish :
  onPublish 0 (Sample.publish "a1" false) Sample.after_link
  = onPublish 0 (Sample.publish "writer/a/b/" false) Sample.after_link.
Proof. vm_compute. reflexivity. Qed.

Example subscribe_replays :
  exists c',
    onSubscribe "reader/a/b/" Sample.conn = Some (None, c')
    /\ effects c' = [EffSend Sample.stored_message; EffTrack {| ContractID := 1 |}].
Proof. eexists. split; [vm_compute; reflexivity | reflexivity]. Qed.

(* ------------------------------------------------------------------ *)
(** ** The further properties on the sample deployments *)

Lemma refused_subscribe_is_clean_sample :
  onSubscribe "broken/a/b/" Sample.conn
  = Some (Some ErrServerError, Scenario.after_failed_replay)
  /\ exists contract key,
       authorize (ParseChannel "broken/a/b/") AllowRead = Some (contract, key)
       /\ HasPermission key AllowExtend = false
       /\ HasPermission key AllowLoad = true.
Proof.
  assert (Hrun : onSubscribe "broken/a/b/" Sample.conn
                 = Some (Some ErrServerError, Scenario.after_failed_replay))
    by (vm_compute; reflexivity).
  split; [exact Hrun |].
  destruct (refused_subscribe_is_clean _ _ _ _ Hrun) as (_ & _ & Hserver).
  exact (Hserver eq_refl).
Defined.

Lemma refused_unsubscribe_is_clean_sample :
  onUnsubscribe "nowhere" Sample.subscribed = Some (Some ErrBadRequest, Sample.subscribed)
  /\ (ErrBadRequest = ErrBadRequest \/ ErrBadRequest = ErrUnauthorized).
Proof.
  assert (Hrun : onUnsubscribe "nowhere" Sample.subscribed
                 = Some (Some ErrBadRequest, Sample.subscribed))
    by (vm_compute; reflexivity).
  split; [exact Hrun |].
  exact (proj1 (refused_unsubscribe_is_clean _ _ _ _ Hrun)).
Defined.

Lemma subscribe_replays_in_order_sample :
  exists c',
    onSubscribe "reader/a/b/" Sample.conn = Some (None, c')
    /\ effects c' = [EffSend Sample.stored_message; EffTrack {| ContractID := 1 |}].
Proof.
  destruct (subscribe_replays_in_order Sample.conn "reader/a/b/"
              {| ContractID := 1 |} Scenario.reader [Sample.stored_message])
    as (c' & Hrun & _ & _ & Heff).
  - vm_compute. discriminate.
  - vm_compute. reflexivity.
  - reflexivity.
  - reflexivity.
  - reflexivity.
  - exists c'. split; [exact Hrun | exact Heff].
Defined.

Lemma subscribe_then_unsubscribe_sample :
  onSubscribe "reader/a/b/" Sample.conn = Some (None, Scenario.after_subscribe)
  /\ exists c2,
       onUnsubscribe "reader/a/b/" Scenario.after_subscribe = Some (None, c2)
       /\ subscriptions c2 = subscriptions Sample.conn.
Proof.
  assert (Hrun : onSubscribe "reader/a/b/" Sample.conn
                 = Some (None, Scenario.after_subscribe))
    by (vm_compute; reflexivity).
  split; [exact Hrun |].
  destruct (subscribe_then_unsubscribe Sample.conn Scenario.after_subscribe "reader/a/b/"
              {| ContractID := 1 |} Scenario.reader)
    as (c2 & Hun & _ & Hfresh & _).
  - vm_compute. reflexivity.
  - exact Hrun.
  - exists c2. split; [exact Hun |]. apply Hfresh. apply not_elem_of_empty.
Defined.

Lemma refused_publish_is_clean_sample :
  onPublish 0 (Sample.publish "writer/a/+/" true) Sample.subscribed
  = Some (Some ErrForbidden, Sample.subscribed)
  /\ publish_error ErrForbidden.
Proof.
  assert (Hrun : onPublish 0 (Sample.publish "writer/a/+/" true) Sample.subscribed
                 = Some (Some ErrForbidden, Sample.subscribed))
    by (vm_compute; reflexivity).
  split; [exact Hrun |].
  exact (proj1 (refused_publish_is_clean _ _ _ _ _ Hrun)).
Defined.

Lemma publish_keeps_links_and_trie_sample :
  exists c',
    onPublish 0 (Sample.publish "a1" true) Sample.after_link = Some (None, c')
    /\ links c' = links Sample.after_link
    /\ subscriptions c' = subscriptions Sample.after_link.
Proof.
  destruct (onPublish 0 (Sample.publish "a1" true) Sample.after_link)
    as [[result c'] |] eqn:Hrun; [| vm_compute in Hrun; discriminate].
  assert (Hresult : result = None).
  { vm_compute in Hrun. by injection Hrun as <- _. }
  subst result. exists c'. split; [reflexivity |].
  destruct (publish_keeps_links_and_trie Sample.after_link c' 0
              (Sample.publish "a1" true) None)
    as (_ & _ & Hlinks & Hsubs & _).
  - vm_compute. discriminate.
  - exact Hrun.
  - split; [exact Hlinks | exact Hsubs].
Defined.

Lemma keygen_only_reads_sample :
  exists r,
    onKeyGen 0 "keygen rw" Sample.subscribed
    = Some ((Some (RespKeyGen r), true), Sample.subscribed)
    /\ kgr_Status r = 200.
Proof.
  destruct (onKeyGen 0 "keygen rw" Sample.subscribed) as [[[resp ok] c'] |] eqn:Hrun;
    [| vm_compute in Hrun; discriminate].
  destruct (keygen_only_reads _ _ _ _ _ _ Hrun) as (-> & Hpass & _).
  assert (Hok : ok = true) by (vm_compute in Hrun; by injection Hrun as _ <-).
  subst ok. destruct (proj1 Hpass eq_refl) as (r & -> & Hstatus).
  exists r. split; [reflexivity | exact Hstatus].
Defined.

Lemma keygen_by_extension_sample :
  onKeyGen (svc := Scenario.service) 0 "keygen extend" Sample.conn
  = Some ((Some (RespKeyGen {| kgr_Request := 0; kgr_Status := 200;
                               kgr_Key := "extended:c1"; kgr_Channel := "a/b/" |}),
           true), Sample.conn).
Proof.
  destruct (keygen_by_extension (svc := Scenario.service) Sample.conn 0 "keygen extend"
              {| kg_Key := "extend"; kg_Channel := "a/b/"; kg_Type := "r"; kg_TTL := 60 |}
              Scenario.extend)
    as [Hextended _].
  - reflexivity.
  - reflexivity.
  - reflexivity.
  - reflexivity.
  - reflexivity.
  - apply (Hextended (Sample.channel "extended:c1" "a/b/" [10; 11] [] ChannelStatic)).
    reflexivity.
Defined.

Lemma failed_link_is_clean_sample :
  onLink "link abc" Sample.linked
  = Some ((Some (RespError ErrLinkInvalid), false), Sample.linked)
  /\ Sample.linked = Sample.linked.
Proof.
  assert (Hrun : onLink "link abc" Sample.linked
                 = Some ((Some (RespError ErrLinkInvalid), false), Sample.linked))
    by reflexivity.
  split; [exact Hrun |].
  exact (proj1 (failed_link_is_clean _ _ _ _ Hrun)).
Defined.


Lemma link_names_stay_shortcuts_sample : links_are_shortcuts Sample.after_link.
Proof.
  apply (link_names_stay_shortcuts Sample.conn Sample.after_link "link a1"
           (Some (RespLink {| lkr_Request := 0; lkr_Status := 200;
                              lkr_Name := "a1"; lkr_Channel := "a/b/" |}), true)).
  - intros entries name K [= <-] Hlookup. by rewrite lookup_empty in Hlookup.
  - vm_compute. reflexivity.
Defined.

Lemma link_answers_to_its_name_sample :
  resolve_topic Sample.after_link "a1" = "writer/a/b/"
  /\ onPublish 0 (Sample.publish "a1" false) Sample.after_link
     = onPublish 0 (Sample.publish "writer/a/b/" false) Sample.after_link.
Proof.
  destruct (link_answers_to_its_name Sample.conn Sample.after_link 0 "link a1"
              {| lkr_Request := 0; lkr_Status := 200;
                 lkr_Name := "a1"; lkr_Channel := "a/b/" |})
    as (K & entries' & Hlinks & Hlookup & Hresolve & Hsame).
  - vm_compute. reflexivity.
  - cbn [lkr_Name] in *.
    assert (HK : K = "writer/a/b/").
    { injection Hlinks as <-. rewrite lookup_singleton_eq in Hlookup.
      by injection Hlookup as <-. }
    rewrite HK in Hresolve, Hsame. split; [exact Hresolve |].
    apply Hsame; reflexivity.
Defined.

Lemma link_without_subscription_sample :
  exists c',
    onLink (svc := Scenario.service) "link b2" Sample.subscribed
    = Some ((Some (RespLink {| lkr_Request := 0; lkr_Status := 200;
                               lkr_Name := "b2"; lkr_Channel := "a/b/" |}), true), c')
    /\ subscriptions c' = subscriptions Sample.subscribed
    /\ map_index (links c') "b2" = "writer/a/b/".
Proof.
  assert (Hname : shortcut_grammar "b2").
  { apply shortcut_Match_true. reflexivity. }
  pose proof (link_without_subscription (svc := Scenario.service) Sample.subscribed
                "link b2"
                {| lk_Name := "b2"; lk_Key := "writer"; lk_Channel := "a/b/";
                   lk_Subscribe := false; lk_Private := false |}
                (Sample.channel "writer" "a/b/" [10; 11] [] ChannelStatic) ∅
                eq_refl Hname eq_refl eq_refl
                ltac:(discriminate) eq_refl (or_intror eq_refl)) as Hrun.
  eexists. split; [exact Hrun |].
  split; [reflexivity |]. cbn. by rewrite lookup_insert_eq.
Defined.

Lemma no_link_on_nil_map_sample :
  onLink "link abc" Scenario.unlinked
  = Some ((Some (RespError ErrLinkInvalid), false), Scenario.unlinked)
  /\ false = false
  /\ onLink "link a1" Scenario.unlinked = None.
Proof.
  assert (Hrun : onLink "link abc" Scenario.unlinked
                 = Some ((Some (RespError ErrLinkInvalid), false), Scenario.unlinked))
    by reflexivity.
  split; [exact Hrun |].
  split.
  - exact (no_link_on_nil_map Scenario.unlinked Scenario.unlinked "link abc"
             (Some (RespError ErrLinkInvalid)) false eq_refl Hrun).
  - vm_compute. reflexivity.
Defined.


Lemma unknown_request_is_not_found_sample :
  onEmitterRequest 0 (Sample.channel "emitter" "x/" [42] [] ChannelStatic) "" 9
    Sample.conn
  = Some (false,
          add_effect (EffSendResponse "emitter/x/" (RespError ErrNotFound)) Sample.conn).
Proof.
  assert (Hverb : Query (Sample.channel "emitter" "x/" [42] [] ChannelStatic) = []
                  \/ exists q0 rest,
                       Query (Sample.channel "emitter" "x/" [42] [] ChannelStatic)
                       = q0 :: rest
                       /\ q0 <> requestKeygen /\ q0 <> requestPresence
                       /\ q0 <> requestMe /\ q0 <> requestLink).
  { right. exists 42, []. repeat split; discriminate. }
  exact (unknown_request_is_not_found Sample.conn 0
           (Sample.channel "emitter" "x/" [42] [] ChannelStatic) "" 9 Hverb).
Defined.

Lemma me_reports_every_link_sample :
  exists r,
    onMe Scenario.unlinked = Some ((Some (RespMe r), true), Scenario.unlinked)
    /\ me_Links r = ∅.
Proof.
  destruct (me_reports_every_link Scenario.unlinked) as (r & Hrun & _ & _ & Hnil).
  exists r. split; [exact Hrun | apply Hnil; reflexivity].
Defined.

Lemma access_grants_exactly_sample :
  Z.land (access {| kg_Key := ""; kg_Channel := ""; kg_Type := "xr"; kg_TTL := 0 |}) 2 = 2
  /\ Z.testbit (access {| kg_Key := ""; kg_Channel := ""; kg_Type := "xr"; kg_TTL := 0 |}) 1
     = true.
Proof.
  destruct (access_grants_exactly
              {| kg_Key := ""; kg_Channel := ""; kg_Type := "xr"; kg_TTL := 0 |})
    as [Hbits Hgranted].
  split.
  - apply (Hgranted "r"%char 2); [right; left; reflexivity | reflexivity].
  - apply Hbits. right. exists "r"%char, 2.
    split; [right; left; reflexivity |]. split; reflexivity.
Defined.

Lemma access_same_characters_sample :
  access {| kg_Key := ""; kg_Channel := ""; kg_Type := "rwr"; kg_TTL := 0 |}
  = access {| kg_Key := ""; kg_Channel := ""; kg_Type := "wr"; kg_TTL := 0 |}.
Proof.
  apply access_same_characters. intros c. cbn. tauto.
Defined.

Lemma access_of_parts_sample :
  access {| kg_Key := ""; kg_Channel := ""; kg_Type := "rwsl"; kg_TTL := 0 |}
  = Z.lor (access {| kg_Key := "k"; kg_Channel := ""; kg_Type := "rw"; kg_TTL := 0 |})
          (access {| kg_Key := ""; kg_Channel := ""; kg_Type := "sl"; kg_TTL := 5 |}).
Proof. apply access_of_parts. reflexivity. Defined.

Lemma access_fits_uint8_sample :
  is_uint8 (access {| kg_Key := ""; kg_Channel := ""; kg_Type := "rwslpex"; kg_TTL := 0 |}).
Proof.
  apply access_fits_uint8. unfold flags_are_uint8, is_uint8.
  repeat constructor; cbn; lia.
Defined.

Lemma expiry_follows_ttl_sample :
  expires 5000000000 {| kg_Key := ""; kg_Channel := ""; kg_Type := ""; kg_TTL := -1 |}
  < 5000000000
  /\ Unix (expires 5000000000
             {| kg_Key := ""; kg_Channel := ""; kg_Type := ""; kg_TTL := 60 |}) = 65.
Proof.
  split.
  - destruct (expiry_follows_ttl 5000000000
                {| kg_Key := ""; kg_Channel := ""; kg_Type := ""; kg_TTL := -1 |})
      as (_ & _ & _ & Hpast).
    + unfold is_int32. cbn. lia.
    + apply Hpast. cbn. lia.
  - destruct (expiry_follows_ttl 5000000000
                {| kg_Key := ""; kg_Channel := ""; kg_Type := ""; kg_TTL := 60 |})
      as (_ & Hmoved & _).
    + unfold is_int32. cbn. lia.
    + destruct Hmoved as [_ Hunix]; [discriminate |]. exact Hunix.
Defined.

Lemma shortcut_accepts_the_grammar_sample :
  shortcut_grammar "Z9" /\ 1 <= len "Z9" <= 2.
Proof.
  destruct (shortcut_accepts_the_grammar "Z9") as [Hiff Hlen].
  split; [apply Hiff; reflexivity | apply Hlen; reflexivity].
Defined.


Lemma presence_status_response_sample :
  exists r c',
    onPresence (svc := Scenario.service) 5000000000 "presence watch" Sample.subscribed
    = Some ((Some (RespPresence r), true), c')
    /\ prr_Channel r = "a/b/"
    /\ prr_Time r = 5
    /\ prr_Who r = [{| pi_ID := "c1"; pi_Username := "" |};
                    Scenario.alice; Scenario.bob; Scenario.carol].
Proof.
  destruct (onPresence (svc := Scenario.service) 5000000000 "presence watch"
              Sample.subscribed)
    as [[[resp ok] c'] |] eqn:Hrun; [| vm_compute in Hrun; discriminate].
  assert (Hresp : exists r, resp = Some (RespPresence r)
                            /\ prr_Channel r = "a/b/"
                            /\ prr_Who r = [{| pi_ID := "c1"; pi_Username := "" |};
                                            Scenario.alice; Scenario.bob; Scenario.carol]).
  { vm_compute in Hrun. injection Hrun as <- _ _. eexists. by repeat split. }
  destruct Hresp as (r & -> & Hchannel & Hwho).
  destruct (presence_status_response (svc := Scenario.service) _ _ _ _ _ _ Hrun)
    as (-> & _ & Htime & _).
  exists r, c'. split; [reflexivity |].
  split; [exact Hchannel |]. split; [exact Htime | exact Hwho].
Defined.

Lemma presence_changes_follow_notifications_sample :
  exists resp c',
    onPresence (svc := Scenario.service) 5000000000 "presence watch" Sample.subscribed
    = Some ((resp, true), c')
    /\ (pn_Ssid (newPresenceNotify (svc := Scenario.service) 0 [1; 10; 11]
                   presenceSubscribeEvent "a/b/" "c2" "bob"), "", "c1")
       ∈ subscriptions c'.
Proof.
  destruct (onPresence (svc := Scenario.service) 5000000000 "presence watch"
              Sample.subscribed)
    as [[[resp ok] c'] |] eqn:Hrun; [| vm_compute in Hrun; discriminate].
  assert (Hok : ok = true) by (vm_compute in Hrun; by injection Hrun as _ <- _).
  subst ok.
  destruct (presence_changes_follow_notifications (svc := Scenario.service) _ _ _ _ _ Hrun)
    as (msg & key & Hbody & Hkey & Hnotify).
  exists resp, c'. split; [reflexivity |].
  injection Hbody as <-. injection Hkey as <-.
  destruct (Hnotify 0 presenceSubscribeEvent "a/b/" "c2" "bob") as (Hwatch & _).
  exact (Hwatch eq_refl).
Defined.

Lemma cluster_presence_gathers_answers_sample :
  getClusterPresence (svc := Scenario.service) [1; 10; 11]
  = [Scenario.alice; Scenario.bob; Scenario.carol]
  /\ getClusterPresence (svc := Sample.service) [1; 10; 11] = [].
Proof.
  destruct (cluster_presence_gathers_answers (svc := Scenario.service) [1; 10; 11])
    as (_ & _ & Hgather).
  destruct (cluster_presence_gathers_answers (svc := Sample.service) [1; 10; 11])
    as (Hnone & _).
  split.
  - rewrite (Hgather "an ssid" Scenario.awaiter eq_refl eq_refl). reflexivity.
  - apply Hnone. reflexivity.
Defined.

Lemma all_presence_is_local_then_cluster_sample :
  getAllPresence (svc := Sample.service) (subscriptions Sample.subscribed) [1; 10; 11]
  = [{| pi_ID := "c1"; pi_Username := "" |}].
Proof.
  destruct (all_presence_is_local_then_cluster (svc := Sample.service)
              (subscriptions Sample.subscribed) [1; 10; 11])
    as [_ Hlocal].
  rewrite Hlocal by (left; reflexivity).
  vm_compute. reflexivity.
Defined.

Lemma survey_answers_presence_only_sample :
  OnSurvey (svc := Scenario.service) "keygen" "an ssid" Sample.subscribed
  = Some ((None, false), Sample.subscribed)
  /\ exists c',
       OnSurvey (svc := Scenario.service) "presence" "an ssid" Sample.subscribed
       = Some ((Some "c1", true), c')
       /\ subscriptions c' = subscriptions Sample.subscribed.
Proof.
  split.
  - assert (Hrun : OnSurvey (svc := Scenario.service) "keygen" "an ssid" Sample.subscribed
                   = Some ((None, false), Sample.subscribed)) by reflexivity.
    destruct (survey_answers_presence_only (svc := Scenario.service) _ _ _ _ _ _ Hrun)
      as (_ & _ & _ & Hother & _).
    destruct Hother as (_ & _ & _); [left; discriminate |]. exact Hrun.
  - destruct (OnSurvey (svc := Scenario.service) "presence" "an ssid" Sample.subscribed)
      as [[[reply ok] c'] |] eqn:Hrun; [| vm_compute in Hrun; discriminate].
    destruct (survey_answers_presence_only (svc := Scenario.service) _ _ _ _ _ _ Hrun)
      as (_ & _ & Hsubs & _).
    assert (Hresult : reply = Some "c1" /\ ok = true).
    { vm_compute in Hrun. by injection Hrun as <- <- _. }
    destruct Hresult as [-> ->].
    exists c'. split; [reflexivity | exact Hsubs].
Defined.
